(** * DLsite metadata source: a shallow embedding of [src/__init__.py]

    The plugin class [DLsiteMetadata] is embedded function by function.
    Python strings are byte strings holding UTF-8 text ([string] of the
    Standard Library); case mapping and white space are those of ASCII.
    Dictionaries are [gmap], Python sets are [gset].  The HTTP client, the
    HTML tree with its XPath engine and the calibre helpers are not part of
    the repository: they are the fields of the record [Host], and every
    function of the plugin is a function of a host.  Exceptions are values
    ([Raise]); the state threaded through the plugin is the list of issued
    requests, the cover cache and the result queue. *)

From Stdlib Require Import String Ascii List Bool Arith Lia Sorted.
From stdpp Require Import gmap strings list.

Open Scope string_scope.
Open Scope list_scope.
Open Scope nat_scope.

(** ** Python [str] methods used by the plugin *)

Module PyStr.

(** [str.isspace] on one ASCII character: tab, line feed, vertical tab,
    form feed, carriage return, the four separators 0x1c..0x1f and space. *)
Definition is_space (a : ascii) : bool :=
  let n := nat_of_ascii a in
  ((9 <=? n) && (n <=? 13)) || ((28 <=? n) && (n <=? 32)).

(** Membership in [string.punctuation]: the 32 ASCII characters
    33..47, 58..64, 91..96 and 123..126. *)
Definition is_punctuation (a : ascii) : bool :=
  let n := nat_of_ascii a in
  ((33 <=? n) && (n <=? 47)) || ((58 <=? n) && (n <=? 64))
  || ((91 <=? n) && (n <=? 96)) || ((123 <=? n) && (n <=? 126)).

Definition lower_ascii (a : ascii) : ascii :=
  let n := nat_of_ascii a in
  if (65 <=? n) && (n <=? 90) then ascii_of_nat (n + 32) else a.

Fixpoint map_chars (f : ascii -> ascii) (s : string) : string :=
  match s with
  | EmptyString => EmptyString
  | String a s' => String (f a) (map_chars f s')
  end.

Fixpoint filter_chars (keep : ascii -> bool) (s : string) : string :=
  match s with
  | EmptyString => EmptyString
  | String a s' =>
      if keep a then String a (filter_chars keep s') else filter_chars keep s'
  end.

(** [s.lower()] on ASCII text: the 26 capital letters are mapped and every
    other byte is kept, which is what [str.lower] does to a string of ASCII
    characters. *)
Definition lower (s : string) : string := map_chars lower_ascii s.

(** [s.translate(str.maketrans("", "", string.punctuation))] *)
Definition remove_punctuation (s : string) : string :=
  filter_chars (fun a => negb (is_punctuation a)) s.

Fixpoint lstrip_by (drop : ascii -> bool) (s : string) : string :=
  match s with
  | EmptyString => EmptyString
  | String a s' => if drop a then lstrip_by drop s' else s
  end.

Fixpoint rev_string (s : string) : string :=
  match s with
  | EmptyString => EmptyString
  | String a s' => rev_string s' +:+ String a EmptyString
  end.

Definition rstrip_by (drop : ascii -> bool) (s : string) : string :=
  rev_string (lstrip_by drop (rev_string s)).

(** [s.strip()] on ASCII text: the white space removed is that of
    [is_space]. *)
Definition strip (s : string) : string :=
  rstrip_by is_space (lstrip_by is_space s).

(** [s.lstrip("0")] *)
Definition lstrip_zero (s : string) : string :=
  lstrip_by (Ascii.eqb "0"%char) s.

(** [s.split(sep)] for a one-character separator: every occurrence
    cuts, empty pieces are kept, and the result is never empty. *)
Fixpoint split (sep : ascii) (s : string) : list string :=
  match s with
  | EmptyString => [EmptyString]
  | String a s' =>
      if Ascii.eqb a sep then EmptyString :: split sep s'
      else match split sep s' with
           | [] => [String a EmptyString]
           | p :: ps => String a p :: ps
           end
  end.

(** [sep.join(pieces)] *)
Fixpoint join (sep : string) (pieces : list string) : string :=
  match pieces with
  | [] => EmptyString
  | [p] => p
  | p :: ps => p +:+ sep +:+ join sep ps
  end.

(** [s.rsplit(sep, 1)]: cut once, at the last occurrence of [sep]. *)
Definition rsplit1 (sep : ascii) (s : string) : list string :=
  match split sep s with
  | [] | [_] => [s]
  | ps => [join (String sep EmptyString) (List.removelast ps); List.last ps EmptyString]
  end.

Fixpoint starts_with (p s : string) : bool :=
  match p, s with
  | EmptyString, _ => true
  | String a p', String b s' => Ascii.eqb a b && starts_with p' s'
  | String _ _, EmptyString => false
  end.

(** [sub in s] *)
Fixpoint contains (sub s : string) : bool :=
  starts_with sub s ||
  match s with
  | EmptyString => false
  | String _ s' => contains sub s'
  end.

(** [s.replace(old, new)] for a non-empty [old]: occurrences are replaced
    from the left and do not overlap; [skip] counts the characters of the
    occurrence just replaced that are still to be passed over. *)
Fixpoint replace_from (old new : string) (skip : nat) (s : string) : string :=
  match s with
  | EmptyString => EmptyString
  | String a s' =>
      match skip with
      | S k => replace_from old new k s'
      | O =>
          if starts_with old s
          then new +:+ replace_from old new (String.length old - 1) s'
          else String a (replace_from old new 0 s')
      end
  end.

(** With an empty [old] Python puts [new] before every character and at
    the end. *)
Fixpoint intersperse (new s : string) : string :=
  match s with
  | EmptyString => new
  | String a s' => new +:+ String a (intersperse new s')
  end.

Definition replace (old new s : string) : string :=
  match old with
  | EmptyString => intersperse new s
  | _ => replace_from old new 0 s
  end.

Fixpoint has_char (c : ascii) (s : string) : bool :=
  match s with
  | EmptyString => false
  | String a s' => Ascii.eqb a c || has_char c s'
  end.

(** [urllib.parse.quote(s)] with the default [safe="/"] on the UTF-8
    bytes: letters, digits and [_ . - ~ /] stay, every other byte becomes
    [%XX] in upper-case hexadecimal. *)
Definition is_unreserved (a : ascii) : bool :=
  let n := nat_of_ascii a in
  ((48 <=? n) && (n <=? 57)) || ((65 <=? n) && (n <=? 90))
  || ((97 <=? n) && (n <=? 122))
  || (n =? 95) || (n =? 46) || (n =? 45) || (n =? 126) || (n =? 47).

Definition hex_digit (n : nat) : ascii :=
  if n <? 10 then ascii_of_nat (48 + n) else ascii_of_nat (55 + n).

Fixpoint quote (s : string) : string :=
  match s with
  | EmptyString => EmptyString
  | String a s' =>
      if is_unreserved a then String a (quote s')
      else
        let n := nat_of_ascii a in
        String "%"%char (String (hex_digit (n / 16))
          (String (hex_digit (n mod 16)) (quote s')))
  end.

End PyStr.


(** ** The localisation tables of the class *)

Module L10n.

(** One entry of [TRANSLATIONS]: the labels of a locale's product page
    and its date format.  The keys [Release-date], [Series-name] and
    [Comic-Market] are spelt with an underscore. *)
Record Translation := {
  Author1 : string;
  Publisher : string;
  Circle : string;
  Label : string;
  Release_date : string;
  format : string;
  Author2 : string;
  Series_name : string;
  Event : string;
  Comic_Market : string;
  Genre : string
}.

Definition BASE_URL : string := "https://www.dlsite.com".

Definition COUNTRIES : list (string * string) :=
  [ ("ja_JP", "日本語");
    ("en_US", "English");
    ("zh_CN", "简体中文");
    ("zh_TW", "繁體中文");
    ("ko_KR", "한국어");
    ("es_ES", "Español");
    ("de_DE", "Deutsch");
    ("fr_FR", "Français");
    ("id_ID", "Bahasa Indonesia");
    ("it_IT", "Italiano");
    ("pt_BR", "Português");
    ("sv_SE", "Svenska");
    ("th_TH", "ภาษาไทย");
    ("vi_VN", "Tiếng Việt") ].

Definition TRANSLATIONS : list (string * Translation) :=
  [ ("ja_JP",
    {| Author1 := "著者";
       Publisher := "出版社名";
       Circle := "サークル名";
       Label := "レーベル";
       Release_date := "販売日";
       format := "%Y年%m月%d日";
       Author2 := "作者";
       Series_name := "シリーズ名";
       Event := "イベント";
       Comic_Market := "コミックマーケット";
       Genre := "ジャンル" |});
    ("en_US",
    {| Author1 := "Author";
       Publisher := "Publisher";
       Circle := "Circle";
       Label := "Label";
       Release_date := "Release date";
       format := "%b/%d/%Y";
       Author2 := "Author";
       Series_name := "Series Name";
       Event := "Event";
       Comic_Market := "Comic Market ";
       Genre := "Genre" |});
    ("zh_CN",
    {| Author1 := "作者";
       Publisher := "出版社名";
       Circle := "社团名";
       Label := "标签";
       Release_date := "贩卖日";
       format := "%Y年%m月%d日";
       Author2 := "作者";
       Series_name := "系列名";
       Event := "活动";
       Comic_Market := "CM（ComicMarket）";
       Genre := "分类" |});
    ("zh_TW",
    {| Author1 := "作者";
       Publisher := "出版社名";
       Circle := "社團名";
       Label := "品牌";
       Release_date := "販賣日";
       format := "%Y年%m月%d日";
       Author2 := "作者";
       Series_name := "系列名";
       Event := "活動";
       Comic_Market := "CM（ComicMarket）";
       Genre := "分類" |});
    ("ko_KR",
    {| Author1 := "저자";
       Publisher := "출판사명";
       Circle := "서클명";
       Label := "라벨";
       Release_date := "판매일";
       format := "%Y년 %m월 %d일";
       Author2 := "저자";
       Series_name := "시리즈명";
       Event := "이벤트";
       Comic_Market := "코믹마켓 ";
       Genre := "장르" |});
    ("es_ES",
    {| Author1 := "Autor";
       Publisher := "Editor";
       Circle := "Círculo";
       Label := "Etiqueta";
       Release_date := "Lanzamiento";
       format := "%m/%d/%Y";
       Author2 := "Autor";
       Series_name := "Serie";
       Event := "Evento";
       Comic_Market := "Mercado de Cómics ";
       Genre := "Género" |});
    ("de_DE",
    {| Author1 := "Autor";
       Publisher := "Herausgeber";
       Circle := "Kreis";
       Label := "Label";
       Release_date := "Veröffentlicht";
       format := "%d/%m/%Y";
       Author2 := "Autor";
       Series_name := "Serie";
       Event := "Event";
       Comic_Market := "コミックマーケット";
       Genre := "Genre" |});
    ("fr_FR",
    {| Author1 := "Auteur";
       Publisher := "1%";
       Circle := "1%";
       Label := "Label";
       Release_date := "Date de sortie";
       format := "%d/%m/%Y";
       Author2 := "Auteur";
       Series_name := "Série";
       Event := "Événement";
       Comic_Market := "Comic Market ";
       Genre := "Genre" |});
    ("id_ID",
    {| Author1 := "Pengarang";
       Publisher := "Nama Penerbit";
       Circle := "Nama Circle";
       Label := "Label";
       Release_date := "Tanggal rilis";
       format := "%d/%m/%Y";
       Author2 := "Penulis";
       Series_name := "Nama seri";
       Event := "Event";
       Comic_Market := "Komiket ";
       Genre := "Genre" |});
    ("it_IT",
    {| Author1 := "autore";
       Publisher := ":casa editrice nome";
       Circle := ":Circolo nome";
       Label := "Etichetta";
       Release_date := "Data di rilascio";
       format := "%d/%m/%Y";
       Author2 := "Autore";
       Series_name := "Serie";
       Event := "Evento.";
       Comic_Market := "コミックマーケット";
       Genre := "Genere" |});
    ("pt_BR",
    {| Author1 := "Autor";
       Publisher := "Editora pessoa(s)";
       Circle := "Círculo pessoa(s)";
       Label := "Selo";
       Release_date := "Lançamento";
       format := "%d/%m/%Y";
       Author2 := "Autor";
       Series_name := "Série";
       Event := "Evento";
       Comic_Market := "コミックマーケット";
       Genre := "Gênero" |});
    ("sv_SE",
    {| Author1 := "Författare";
       Publisher := "Utgivare";
       Circle := "Cirkel";
       Label := "Label";
       Release_date := "Utgivningsdatum";
       format := "%d/%m/%Y";
       Author2 := "Författare";
       Series_name := "Serier";
       Event := "Händelse";
       Comic_Market := "コミックマーケット";
       Genre := "Genre" |});
    ("th_TH",
    {| Author1 := "ผู้เขียน";
       Publisher := "สำนักพิมพ์ คน";
       Circle := "เซอร์เคิล คน";
       Label := "ค่ายเพลง";
       Release_date := "วันที่ขาย";
       format := "%d/%m/%Y";
       Author2 := "ผู้เขียน";
       Series_name := "ชื่อซีรี่ส์";
       Event := "อีเวนต์";
       Comic_Market := "コミックマーケット";
       Genre := "ประเภท" |});
    ("vi_VN",
    {| Author1 := "Tác giả";
       Publisher := "Nhà xuất bản Tên";
       Circle := "Nhóm Tên";
       Label := "Nhãn dán";
       Release_date := "Ngày phát hành";
       format := "%d/%m/%Y";
       Author2 := "Tác giả";
       Series_name := "Bộ truyện";
       Event := "Sự kiện";
       Comic_Market := "コミックマーケット";
       Genre := "Thể loại" |}) ].

(** [d[key]] on an association list standing for a dict literal. *)
Fixpoint assoc {A} (key : string) (d : list (string * A)) : option A :=
  match d with
  | [] => None
  | (k, v) :: d' => if String.eqb k key then Some v else assoc key d'
  end.

End L10n.


(** ** Exceptions and the two monads *)

(** The exception classes the plugin can meet. *)
Inductive exn :=
| IndexError | AttributeError | TypeError | KeyError | ValueError
| AssertionError | LocaleError.

(** A computation that touches no state: a value or a raised exception. *)
Inductive outcome (A : Type) :=
| Return (a : A)
| Raise (e : exn).
Arguments Return {A} a.
Arguments Raise {A} e.

Definition obind {A B} (m : outcome A) (k : A -> outcome B) : outcome B :=
  match m with
  | Return a => k a
  | Raise e => Raise e
  end.

Notation "'let?' x ':=' m 'in' k" := (obind m (fun x => k))
  (at level 10, x pattern, m at level 200, k at level 200).

(** [l[0]] *)
Definition item0 {A} (l : list A) : outcome A :=
  match l with
  | x :: _ => Return x
  | [] => Raise IndexError
  end.

(** [for x in xs: acc = body(x, acc)], stopping at the first exception. *)
Fixpoint for_each {A S} (body : A -> S -> outcome S) (xs : list A) (acc : S)
  : outcome S :=
  match xs with
  | [] => Return acc
  | x :: xs' => let? acc' := body x acc in for_each body xs' acc'
  end.

(** [prefix + t] where [t] may be [None]. *)
Definition str_add (prefix : string) (t : option string) : outcome string :=
  match t with
  | Some s => Return (prefix +:+ s)
  | None => Raise TypeError
  end.

(** ** What the plugin takes from its host *)

(** The capabilities of lxml, mechanize, calibre and the C library that the
    plugin calls.  [open_novisit] stands for the body of the [try] of
    [_get_webpage]: opening the URL, reading and parsing the response, and
    asking for the final URL; [None] is any exception raised there.  Its
    first argument is the list of the requests issued before, so that the
    answer to a request may change from one attempt to the next. *)
Record Host := {
  Element : Type;
  Date : Type;
  xpath : Element -> string -> list Element;
  text : Element -> option string;
  get : Element -> string -> option string;
  element_bool : Element -> bool;
  tostring : Element -> string;
  open_novisit : list string -> string -> option (Element * string);
  fixauthors : list (option string) -> list string;
  strptime : string -> string -> option Date;
  setlocale : string -> bool;
  get_title_tokens : option string -> list string
}.

(** The options of the plugin, [self.prefs]. *)
Record Prefs := {
  country : string;
  num_matches : nat;
  title_blacklist : string;
  tag_blacklist : string;
  remove_leading_zeroes : bool
}.

(** calibre's [Metadata], as far as the plugin reads and writes it. *)
Record Metadata {D : Type} := {
  md_title : string;
  md_authors : list string;
  md_publisher : option string;
  md_pubdate : option D;
  md_series : option string;
  md_tags : list string;
  md_comments : option string;
  md_identifiers : gmap string string;
  md_isbn : option string;
  md_source_relevance : option nat
}.
Arguments Metadata D : clear implicits.

(** [Metadata(title)] *)
Definition Metadata_new {D} (title : string) : Metadata D :=
  {| md_title := title; md_authors := ["Unknown"]; md_publisher := None;
     md_pubdate := None; md_series := None; md_tags := [];
     md_comments := None; md_identifiers := ∅; md_isbn := None;
     md_source_relevance := None |}.

Section Setters.
Context {D : Type}.
Implicit Type md : Metadata D.

Definition set_authors md v : Metadata D :=
  {| md_title := md_title md; md_authors := v;
     md_publisher := md_publisher md; md_pubdate := md_pubdate md;
     md_series := md_series md; md_tags := md_tags md;
     md_comments := md_comments md; md_identifiers := md_identifiers md;
     md_isbn := md_isbn md; md_source_relevance := md_source_relevance md |}.

Definition set_publisher md v : Metadata D :=
  {| md_title := md_title md; md_authors := md_authors md;
     md_publisher := v; md_pubdate := md_pubdate md;
     md_series := md_series md; md_tags := md_tags md;
     md_comments := md_comments md; md_identifiers := md_identifiers md;
     md_isbn := md_isbn md; md_source_relevance := md_source_relevance md |}.

Definition set_pubdate md v : Metadata D :=
  {| md_title := md_title md; md_authors := md_authors md;
     md_publisher := md_publisher md; md_pubdate := v;
     md_series := md_series md; md_tags := md_tags md;
     md_comments := md_comments md; md_identifiers := md_identifiers md;
     md_isbn := md_isbn md; md_source_relevance := md_source_relevance md |}.

Definition set_series md v : Metadata D :=
  {| md_title := md_title md; md_authors := md_authors md;
     md_publisher := md_publisher md; md_pubdate := md_pubdate md;
     md_series := v; md_tags := md_tags md;
     md_comments := md_comments md; md_identifiers := md_identifiers md;
     md_isbn := md_isbn md; md_source_relevance := md_source_relevance md |}.

Definition set_tags md v : Metadata D :=
  {| md_title := md_title md; md_authors := md_authors md;
     md_publisher := md_publisher md; md_pubdate := md_pubdate md;
     md_series := md_series md; md_tags := v;
     md_comments := md_comments md; md_identifiers := md_identifiers md;
     md_isbn := md_isbn md; md_source_relevance := md_source_relevance md |}.

Definition set_comments md v : Metadata D :=
  {| md_title := md_title md; md_authors := md_authors md;
     md_publisher := md_publisher md; md_pubdate := md_pubdate md;
     md_series := md_series md; md_tags := md_tags md;
     md_comments := v; md_identifiers := md_identifiers md;
     md_isbn := md_isbn md; md_source_relevance := md_source_relevance md |}.

Definition set_identifiers md v : Metadata D :=
  {| md_title := md_title md; md_authors := md_authors md;
     md_publisher := md_publisher md; md_pubdate := md_pubdate md;
     md_series := md_series md; md_tags := md_tags md;
     md_comments := md_comments md; md_identifiers := v;
     md_isbn := md_isbn md; md_source_relevance := md_source_relevance md |}.

Definition set_isbn md v : Metadata D :=
  {| md_title := md_title md; md_authors := md_authors md;
     md_publisher := md_publisher md; md_pubdate := md_pubdate md;
     md_series := md_series md; md_tags := md_tags md;
     md_comments := md_comments md; md_identifiers := md_identifiers md;
     md_isbn := v; md_source_relevance := md_source_relevance md |}.

Definition set_source_relevance md v : Metadata D :=
  {| md_title := md_title md; md_authors := md_authors md;
     md_publisher := md_publisher md; md_pubdate := md_pubdate md;
     md_series := md_series md; md_tags := md_tags md;
     md_comments := md_comments md; md_identifiers := md_identifiers md;
     md_isbn := md_isbn md; md_source_relevance := v |}.
End Setters.

(** The state the plugin reads and writes: the requests issued so far
    (oldest first), calibre's identifier-to-cover-URL cache and the result
    queue handed to [identify] (oldest first). *)
Record State {D : Type} := {
  requests : list string;
  cover_urls : gmap string string;
  result_queue : list (Metadata D)
}.
Arguments State D : clear implicits.

(** A stateful computation that may raise: the state reached is kept in
    both cases. *)
Definition M (D A : Type) : Type := State D -> State D * outcome A.

Definition ret {D A} (a : A) : M D A := fun s => (s, Return a).
Definition raise {D A} (e : exn) : M D A := fun s => (s, Raise e).
Definition lift {D A} (o : outcome A) : M D A := fun s => (s, o).

Definition bind {D A B} (m : M D A) (k : A -> M D B) : M D B :=
  fun s =>
    match m s with
    | (s', Return a) => k a s'
    | (s', Raise e) => (s', Raise e)
    end.

Notation "'let*' x ':=' m 'in' k" := (bind m (fun x => k))
  (at level 10, x pattern, m at level 200, k at level 200).

(** ** The class [DLsiteMetadata] *)

Module DLsiteMetadata.
Section Plugin.

Context (H : Host) (prefs : Prefs).

Abbreviation Elem := (Element H).
Abbreviation Md := (Metadata (Date H)).
Abbreviation St := (State (Date H)).
Abbreviation Mon := (M (Date H)).

(** Truth value of a [str]: false for the empty string only. *)
Definition str_bool (s : string) : bool :=
  match s with
  | EmptyString => false
  | String _ _ => true
  end.

(** Truth value of a 2-tuple: a tuple is false only when it is empty. *)
Definition tuple_bool {A B} (t : A * B) : bool := true.

(** Truth value of what the blacklist checks return: [None] and the
    empty set are false. *)
Definition set_bool (x : option (gset string)) : bool :=
  match x with
  | None => false
  | Some X => negb (bool_decide (X = ∅))
  end.

(** The f-string of [get_book_url] and of [identify]. *)
Definition product_url (product_id : string) : string :=
  L10n.BASE_URL +:+ "/books/work/=/product_id/" +:+ product_id
    +:+ "?locale=" +:+ country prefs.

Definition get_book_url (identifiers : gmap string string)
  : option (string * string * string) :=
  match identifiers !! "dlsite" with
  | Some product_id =>
      if str_bool product_id
      then Some ("product_id", product_id, product_url product_id)
      else None
  | None => None
  end.

(** The identifier of [_lookup_metadata]:
    [url.rsplit('/', 1)[-1].split('.')[0].split('?')[0]]. *)
Definition url_product_id (url : string) : string :=
  List.hd EmptyString
    (PyStr.split "?"%char
       (List.hd EmptyString
          (PyStr.split "."%char
             (List.last (PyStr.rsplit1 "/"%char url) EmptyString)))).

Definition _get_search_url (search_str : string) : string :=
  L10n.BASE_URL
    +:+ "/maniax/fsr/=/language/jp/sex_category%5B0%5D/male/keyword/"
    +:+ PyStr.quote search_str.

Definition _generate_query (title : option string)
    (authors : option (list string)) : string :=
  let title :=
    PyStr.join " "
      (map (fun x => if remove_leading_zeroes prefs
                     then PyStr.lstrip_zero x else x)
           (get_title_tokens H title)) in
  match authors with
  | Some authors =>
      fold_left (fun title author => title +:+ " " +:+ author) authors title
  | None => title
  end.

Definition record_request (url : string) (s : St) : St :=
  {| requests := requests s ++ [url]; cover_urls := cover_urls s;
     result_queue := result_queue s |}.

(** Returns the tree and whether the page is a search result; every
    exception of the [try] gives [(None, False)].  A [url] that is [None]
    (an anchor without [href]) makes the client raise before any request
    is issued. *)
Definition _get_webpage (url : option string) : Mon (option Elem * bool) :=
  fun s =>
    match url with
    | None => (s, Return (None, false))
    | Some u =>
        match open_novisit H (requests s) u with
        | Some (tree, final_url) =>
            (record_request u s,
             Return (Some tree, PyStr.contains "/keyword" final_url))
        | None => (record_request u s, Return (None, false))
        end
    end.

(** The list of the [href]s of the results, or Python's [None] when the
    page has no [search_result_list]: the function then ends without a
    [return].  The [except] branch is not reachable: [xpath] and [get] of
    the host do not raise. *)
Definition _get_search_matches (page : Elem) : option (list (option string)) :=
  match xpath H page "//div[@id='search_result_list']" with
  | _ :: _ =>
      Some (map (fun x => get H x "href")
                (xpath H page "//div[@class='multiline_truncate']/a"))
  | [] => None
  end.

(** The [while] loop of [_perform_query].  [fuel] bounds the number of
    iterations; [num_matches] is always enough (see [pagination_fuel]). *)
Fixpoint pagination (fuel : nat) (query : string)
    (results : list (option string)) (i : nat) : Mon (list (option string)) :=
  match fuel with
  | O => ret results
  | S fuel' =>
      if (length results <? num_matches prefs) && (i <? num_matches prefs)
      then
        let url := _get_search_url query in
        let* (tree, is_search) := _get_webpage (Some url) in
        match tree with
        | Some tree =>
            if element_bool H tree && is_search then
              match _get_search_matches tree with
              | Some more => pagination fuel' query (results ++ more) (i + 1)
              | None => raise TypeError
              end
            else raise AssertionError
        | None => raise AssertionError
        end
      else ret results
  end.

(** Returns the URLs that match the search. *)
Definition _perform_query (query : string) : Mon (list (option string)) :=
  let url := _get_search_url query in
  let* (tree, is_search) := _get_webpage (Some url) in
  match tree with
  | None => ret []
  | Some tree =>
      if negb is_search then ret [Some url]
      else
        match _get_search_matches tree with
        | None => raise TypeError
        | Some results =>
            let* results := pagination (num_matches prefs) query results 1 in
            ret (firstn (num_matches prefs) results)
        end
  end.

(** [self.TRANSLATIONS[self.prefs['country']]] *)
Definition translation : outcome L10n.Translation :=
  match L10n.assoc (country prefs) L10n.TRANSLATIONS with
  | Some t => Return t
  | None => Raise KeyError
  end.

(** [x.xpath("th")[0].text.strip()] *)
Definition descriptor_of (x : Elem) : outcome string :=
  let? th := item0 (xpath H x "th") in
  match text H th with
  | Some t => Return (PyStr.strip t)
  | None => Raise AttributeError
  end.

(** The body of the loop over the rows of the [work_maker] table; the
    accumulator is the record and the local list [tags]. *)
Definition maker_row (x : Elem) (acc : Md * list string)
  : outcome (Md * list string) :=
  let '(metadata, tags) := acc in
  let? descriptor := descriptor_of x in
  let? t := translation in
  if String.eqb descriptor (L10n.Author1 t) then
    let authors_elements := xpath H x "td/a" in
    Return (set_authors metadata
              (fixauthors H (map (text H) authors_elements)), tags)
  else if String.eqb descriptor (L10n.Publisher t) then
    let? a := item0 (xpath H x "//span/a") in
    Return (set_publisher metadata (text H a), tags)
  else if String.eqb descriptor (L10n.Circle t) then
    let? a := item0 (xpath H x "//span/a") in
    let? tag := str_add "group." (text H a) in
    Return (metadata, tags ++ [tag])
  else if String.eqb descriptor (L10n.Label t) then
    let? a := item0 (xpath H x "//span/a") in
    let? tag := str_add "label." (text H a) in
    Return (metadata, tags ++ [tag])
  else Return (metadata, tags).

(** The body of the loop over the rows of the [work_outline] table. *)
Definition outline_row (x : Elem) (acc : Md * list string)
  : outcome (Md * list string) :=
  let '(metadata, tags) := acc in
  let? descriptor := descriptor_of x in
  let? t := translation in
  let? metadata :=
    if String.eqb descriptor (L10n.Release_date t) then
      let? a := item0 (xpath H x "td/a") in
      match text H a with
      | None => Raise TypeError
      | Some pubdate =>
          match strptime H pubdate (L10n.format t) with
          | Some d => Return (set_pubdate metadata (Some d))
          | None => Raise ValueError
          end
      end
    else Return metadata in
  if String.eqb descriptor (L10n.Author2 t) then
    let authors_elements := xpath H x "td/a" in
    Return (set_authors metadata
              (fixauthors H (map (text H) authors_elements)), tags)
  else if String.eqb descriptor (L10n.Series_name t) then
    let? a := item0 (xpath H x "td/a") in
    Return (set_series metadata (text H a), tags)
  else if String.eqb descriptor (L10n.Event t) then
    let? a := item0 (xpath H x "//span[@class='icon_EVT']/a") in
    match text H a with
    | None => Raise AttributeError
    | Some e =>
        let event := PyStr.replace (L10n.Comic_Market t) "C" e in
        Return (metadata, tags ++ ["event." +:+ event])
    end
  else if String.eqb descriptor (L10n.Genre t) then
    let tags_elements := xpath H x "//div[@class='main_genre']/a" in
    let? tags :=
      for_each (fun x tags =>
                  let? tag := str_add "genre." (text H x) in
                  Return (tags ++ [tag]))
               tags_elements tags in
    Return (metadata, tags)
  else Return (metadata, tags).

(** The set comprehension of the two blacklist checks:
    [{x.strip().lower() for x in option.split(",")}]. *)
Definition blacklist_of (option : string) : gset string :=
  list_to_set
    (map (fun x => PyStr.lower (PyStr.strip x)) (PyStr.split ","%char option)).

(** The words of a title that the title check looks at. *)
Definition title_words (title : string) : list string :=
  let title_str := PyStr.remove_punctuation title in
  PyStr.split " "%char (PyStr.lower title_str).

(** Returns the set of words in the title that are also blacklisted. *)
Definition _check_title_blacklist (title : string) : option (gset string) :=
  if negb (str_bool (title_blacklist prefs)) then None
  else
    let blacklisted_words := blacklist_of (title_blacklist prefs) in
    Some (blacklisted_words ∩ list_to_set (title_words title)).

(** Returns the set of tags that are also blacklisted. *)
Definition _check_tag_blacklist (tags : list string) : option (gset string) :=
  if negb (str_bool (tag_blacklist prefs)) then None
  else
    let blacklisted_tags := blacklist_of (tag_blacklist prefs) in
    Some (blacklisted_tags ∩ list_to_set (map PyStr.lower tags)).

Definition cache_identifier_to_cover_url (id url : string) : Mon unit :=
  fun s =>
    ({| requests := requests s; cover_urls := <[id := url]> (cover_urls s);
        result_queue := result_queue s |}, Return tt).

(** [_lookup_metadata] from the title to the synopsis: everything that
    depends on the page only.  Gives the title and the record, with the
    local list [tags] folded into it.  The tests [if book_maker_elements]
    and [if book_details_elements] only skip a loop over an empty list. *)
Definition parse_page (url : string) (tree : Elem) : outcome (string * Md) :=
  let title_elements :=
    xpath H tree "//li[@class='topicpath_item'][last()]/a/span" in
  let? e := item0 title_elements in
  let? title :=
    match text H e with
    | Some t => Return (PyStr.strip t)
    | None => Raise AttributeError
    end in
  let metadata : Md := Metadata_new title in
  let metadata :=
    set_identifiers metadata {[ "dlsite" := url_product_id url ]} in
  let tags : list string := [] in
  let? _ :=
    if setlocale H (country prefs +:+ ".UTF-8") then Return tt
    else Raise LocaleError in
  let book_maker_elements := xpath H tree "//table[@id='work_maker']/tr" in
  let? (metadata, tags) :=
    for_each maker_row book_maker_elements (metadata, tags) in
  let book_details_elements := xpath H tree "//table[@id='work_outline']/tr" in
  let? (metadata, tags) :=
    for_each outline_row book_details_elements (metadata, tags) in
  let metadata :=
    match tags with
    | [] => metadata
    | _ :: _ => set_tags metadata (map (PyStr.replace "," " ") tags)
    end in
  let synopsis_elements := xpath H tree "//div[@class='work_parts_area']" in
  let metadata :=
    match synopsis_elements with
    | e :: _ => set_comments metadata (Some (tostring H e))
    | [] => metadata
    end in
  Return (title, metadata).

(** The cover block of [_lookup_metadata]: the URL of the first image,
    if there is one, goes to the cache under the identifier. *)
Definition cache_cover (url : string) (tree : Elem) : Mon unit :=
  let cover_elements := xpath H tree "//picture/source/img" in
  match cover_elements with
  | e :: _ =>
      let* cover_url := lift (str_add "https:" (get H e "srcset")) in
      cache_identifier_to_cover_url (url_product_id url) cover_url
  | [] => ret tt
  end.

(** Given the url for a book, parse and return the metadata. *)
Definition _lookup_metadata (url : option string) : Mon (option Md) :=
  let* (tree, is_search) := _get_webpage url in
  match tree, url with
  | Some tree, Some url =>
      if is_search then ret None
      else
        let* (title, metadata) := lift (parse_page url tree) in
        let* _ := cache_cover url tree in
        let blacklisted_title := _check_title_blacklist title in
        if set_bool blacklisted_title then ret None
        else
          let blacklisted_tags := _check_tag_blacklist (md_tags metadata) in
          if set_bool blacklisted_tags then ret None
          else ret (Some metadata)
  | _, _ => ret None
  end.

Definition put (metadata : Md) : Mon unit :=
  fun s =>
    ({| requests := requests s; cover_urls := cover_urls s;
        result_queue := result_queue s ++ [metadata] |}, Return tt).

(** The first half of [identify]: the candidate URLs. *)
Definition identify_urls (title : option string)
    (authors : option (list string)) (identifiers : gmap string string)
  : Mon (list (option string)) :=
  let product_id := identifiers !! "dlsite" in
  let search : Mon (list (option string)) :=
    let query := _generate_query title authors in
    if str_bool query then _perform_query query else ret [] in
  match product_id with
  | Some product_id =>
      if str_bool product_id then
        let url := product_url product_id in
        let* product_id_urls := _get_webpage (Some url) in
        if tuple_bool product_id_urls then ret [Some url] else ret []
      else search
  | None => search
  end.

(** The second half: the loop over the candidates.  [len_urls] is
    [len(urls)], [urls] what is left of the list, [index] the counter.
    An exception of [_lookup_metadata] ends [identify] with a plain
    [return]. *)
Fixpoint identify_loop (len_urls : nat) (urls : list (option string))
    (index : nat) : Mon unit :=
  match urls with
  | [] => ret tt
  | url :: urls' =>
      fun s =>
        match _lookup_metadata url s with
        | (s', Raise e) => (s', Return tt)
        | (s', Return (Some metadata)) =>
            let metadata := set_source_relevance metadata (Some index) in
            let metadata :=
              if negb (len_urls =? 1)
              then set_isbn metadata (md_identifiers metadata !! "dlsite")
              else metadata in
            (let* _ := put metadata in
             identify_loop len_urls urls' (index + 1)) s'
        | (s', Return None) => identify_loop len_urls urls' (index + 1) s'
        end
  end.

Definition identify (title : option string) (authors : option (list string))
    (identifiers : gmap string string) : Mon unit :=
  let* urls := identify_urls title authors identifiers in
  identify_loop (length urls) urls 0.

End Plugin.
End DLsiteMetadata.

(** ** The cover functions of the class *)

(** What [download_cover] takes from its host besides the fields of
    [Host]: the bytes behind a URL ([br.open_novisit(url).read()], [None]
    for any exception; the first argument is the list of the requests
    issued before), and calibre's [Metadata.get] for a result that is a
    string. *)
Record CoverHost {D : Type} := {
  Cover : Type;
  read_cover : list string -> string -> option Cover;
  metadata_get : Metadata D -> string -> option string
}.
Arguments CoverHost D : clear implicits.

Module DLsiteMetadataCover.
Section Plugin.

Context (H : Host) (prefs : Prefs) (C : CoverHost (Date H)).

(** Truth value of an optional [str]: [None] and the empty string are
    false. *)
Definition url_bool (url : option string) : bool :=
  match url with
  | Some u => DLsiteMetadata.str_bool u
  | None => false
  end.

(** The body of [get_cached_cover_url], from the value that
    [identifiers.get("dlsite", None)] gave: calibre's
    [cached_identifier_to_cover_url] reads the cache that
    [cache_identifier_to_cover_url] writes. *)
Definition cached_cover_url_of (product_id : option string)
    (s : State (Date H)) : option string :=
  match product_id with
  | Some product_id => cover_urls s !! product_id
  | None => None
  end.

Definition get_cached_cover_url (identifiers : gmap string string)
    (s : State (Date H)) : option string :=
  cached_cover_url_of (identifiers !! "dlsite") s.

(** [res_queue = Queue()]: the queue handed to [identify] is a new one. *)
Definition with_new_queue (s : State (Date H)) : State (Date H) :=
  {| requests := requests s; cover_urls := cover_urls s; result_queue := [] |}.

(** The end of [download_cover]: the cover is requested, whatever
    [cover_url] is, and put on the queue of the caller if the request
    gave it.  A [cover_url] that is [None] makes the client raise before
    any request is issued; the [except] branch returns. *)
Definition fetch_cover (cover_url : option string) (s : State (Date H))
  : State (Date H) * outcome (option (Cover C)) :=
  match cover_url with
  | Some u =>
      (DLsiteMetadata.record_request H u s,
       Return (read_cover C (requests s) u))
  | None => (s, Return None)
  end.

(** [download_cover]: what is returned is what is put on [result_queue],
    the cover or nothing; [result_queue] of the state stands for the local
    [res_queue].  In the second call of [get_cached_cover_url] the
    argument is the record itself, and [identifiers.get] is
    [Metadata.get]. *)
Definition download_cover (title : option string)
    (authors : option (list string)) (identifiers : gmap string string)
    (s : State (Date H)) : State (Date H) * outcome (option (Cover C)) :=
  let cover_url := get_cached_cover_url identifiers s in
  if negb (url_bool cover_url) then
    match DLsiteMetadata.identify H prefs title authors identifiers
            (with_new_queue s) with
    | (s1, Raise e) => (s1, Raise e)
    | (s1, Return _) =>
        match result_queue s1 with
        | [] => (s1, Return None)
        | metadata :: _ =>
            let cover_url :=
              cached_cover_url_of (metadata_get C metadata "dlsite") s1 in
            fetch_cover cover_url s1
        end
    end
  else fetch_cover cover_url s.

End Plugin.
End DLsiteMetadataCover.

(** ** A host made of canned pages

    Used to run the plugin: a page is given by the answers to the queries
    made on it, and the web by the answer to each request. *)

Module Canned.

(** An element: its text, its attributes and the answers to the relative
    paths evaluated on it. *)
#[local] Unset Elimination Schemes.
Inductive node :=
| Node (txt : option string) (attrs : list (string * string))
       (rel : list (string * list node)).
#[local] Set Elimination Schemes.

(** A document: the answers to the absolute paths, the same from every
    element of the document. *)
Record page := { absolute : list (string * list node) }.

Definition element : Type := page * node.

Definition answers {A} (path : string) (table : list (string * list A))
  : list A :=
  match L10n.assoc path table with
  | Some l => l
  | None => []
  end.

Definition select (e : element) (path : string) : list element :=
  let '(p, Node _ _ rel) := e in
  if PyStr.starts_with "/" path
  then map (pair p) (answers path (absolute p))
  else map (pair p) (answers path rel).

Definition text_of (e : element) : option string :=
  let '(_, Node txt _ _) := e in txt.

Definition attribute (e : element) (name : string) : option string :=
  let '(_, Node _ attrs _) := e in L10n.assoc name attrs.

Definition serialize (e : element) : string :=
  match text_of e with
  | Some t => "<div>" +:+ t +:+ "</div>"
  | None => "<div></div>"
  end.

Definition root (p : page) : element := (p, Node None [] []).

(** The answer to a request, given the requests made before: a page and
    the URL it was finally served from, or nothing. *)
Definition web : Type := list string -> string -> option (page * string).

Definition request (w : web) (history : list string) (url : string)
  : option (element * string) :=
  match w history url with
  | Some (p, final_url) => Some (root p, final_url)
  | None => None
  end.

(** Author names are taken as they are, tokens are the words between
    spaces, dates are kept as text and every locale is installed. *)
Definition names_as_they_are (names : list (option string)) : list string :=
  omap id names.

Definition words_of (title : option string) : list string :=
  match title with
  | Some t => filter (fun x => x ≠ EmptyString) (PyStr.split " "%char t)
  | None => []
  end.

Definition host (w : web) : Host :=
  {| Element := element; Date := string;
     xpath := select; text := text_of; get := attribute;
     element_bool := fun _ => true; tostring := serialize;
     open_novisit := request w; fixauthors := names_as_they_are;
     strptime := fun pubdate _ => Some pubdate;
     setlocale := fun _ => true; get_title_tokens := words_of |}.

End Canned.

(** ** Pages and shops to run the plugin on *)

Module Pages.

Import Canned.

Definition anchor (t : string) : node := Node (Some t) [] [].

Definition link (href : string) : node := Node None [("href", href)] [].

(** A table row: the text of its header cell and its anchors. *)
Definition row (label : string) (cells : list node) : node :=
  Node None [] [("th", [Node (Some label) [] []]); ("td/a", cells)].

(** A product page: the title of the last breadcrumb, the rows of the
    two tables and the anchors in a span of the whole document. *)
Definition product (title : string) (maker outline span_anchors : list node)
  : page :=
  {| absolute :=
       [("//li[@class='topicpath_item'][last()]/a/span", [anchor title]);
        ("//table[@id='work_maker']/tr", maker);
        ("//table[@id='work_outline']/tr", outline);
        ("//span/a", span_anchors)] |}.

(** A page of search results with the given links. *)
Definition results (hrefs : list string) : page :=
  {| absolute :=
       [("//div[@id='search_result_list']", [Node None [] []]);
        ("//div[@class='multiline_truncate']/a", map link hrefs)] |}.

(** A page with nothing the plugin looks for. *)
Definition blank : page := {| absolute := [] |}.

Definition url_a : string :=
  "https://www.dlsite.com/books/work/=/product_id/BJ001.html".
Definition url_b : string :=
  "https://www.dlsite.com/books/work/=/product_id/BJ002.html".

Definition page_a : page :=
  product "First Book"
    [row "Author" [anchor "Tanaka"; anchor "Sato"]] [] [].
Definition page_b : page :=
  product "Second Book" [row "Author" [anchor "Suzuki"]] [] [].

Definition is_search_url (url : string) : bool :=
  PyStr.contains "/keyword/" url.

(** A shop whose search always lists [url_a] then [url_b], and which
    serves [a] and [b] (or nothing) for them. *)
Definition shop_serving (a b : option page) : web :=
  fun _ url =>
    if is_search_url url then Some (results [url_a; url_b], url)
    else if String.eqb url url_a then option_map (fun p => (p, url)) a
    else if String.eqb url url_b then option_map (fun p => (p, url)) b
    else None.

Definition shop : web := shop_serving (Some page_a) (Some page_b).

(** No request is answered. *)
Definition offline : web := fun _ _ => None.

(** Every search is answered by a page without a list of results. *)
Definition no_hits : web :=
  fun _ url => if is_search_url url then Some (blank, url) else None.

(** Every request is answered by the same product page. *)
Definition only (p : page) : web := fun _ url => Some (p, url).

(** Every request is redirected to the same product page. *)
Definition redirecting (p : page) (final_url : string) : web :=
  fun _ _ => Some (p, final_url).

Definition prefs_en (n : nat) (titles tags : string) : Prefs :=
  {| country := "en_US"; num_matches := n; title_blacklist := titles;
     tag_blacklist := tags; remove_leading_zeroes := false |}.

Definition init : State string :=
  {| requests := []; cover_urls := ∅; result_queue := [] |}.

Definition search_foo : string :=
  "https://www.dlsite.com/maniax/fsr/=/language/jp/sex_category%5B0%5D/male/keyword/foo".


Definition prefs_ja : Prefs :=
  {| country := "ja_JP"; num_matches := 1; title_blacklist := "";
     tag_blacklist := ""; remove_leading_zeroes := false |}.

Definition page_two_authors : page :=
  product "Third Book"
    [row "Author" [anchor "Tanaka"]]
    [row "Author" [anchor "Sato"; anchor "Abe"]; row "Series Name" [anchor "S"]]
    [].

Definition record_two_authors : Metadata string :=
  {| md_title := "Third Book"; md_authors := ["Sato"; "Abe"];
     md_publisher := None; md_pubdate := None; md_series := Some "S";
     md_tags := []; md_comments := None;
     md_identifiers := {[ "dlsite" := "BJ003" ]}; md_isbn := None;
     md_source_relevance := None |}.

Definition translation_en : L10n.Translation :=
  {| L10n.Author1 := "Author"; L10n.Publisher := "Publisher";
     L10n.Circle := "Circle"; L10n.Label := "Label";
     L10n.Release_date := "Release date"; L10n.format := "%b/%d/%Y";
     L10n.Author2 := "Author"; L10n.Series_name := "Series Name";
     L10n.Event := "Event"; L10n.Comic_Market := "Comic Market ";
     L10n.Genre := "Genre" |}.

Definition url_c : string := "https://www.dlsite.com/work/BJ004.html".

(** A page whose three rows hold anchors of their own, and whose first
    anchor in a span is elsewhere in the document. *)
Definition page_maker : page :=
  product "Fourth Book"
    [row "Publisher" [anchor "Own Publisher"];
     row "Circle" [anchor "Own Circle"];
     row "Label" [anchor "Own Label"]]
    []
    [anchor "Site Menu"; anchor "Own Publisher"].

(** A Japanese page with two authors, and an English page of an event. *)
Definition page_ja : page :=
  product "本" [row "著者" [anchor "Tanaka"; anchor "Sato"]] [] [].

Definition page_event : page :=
  {| absolute :=
       ("//span[@class='icon_EVT']/a", [anchor "Comic Market 103"])
       :: absolute (product "Fifth Book" [] [row "Event" []] []) |}.

(** A page with an image added. *)
Definition with_image (p : page) (srcset : string) : page :=
  {| absolute :=
       ("//picture/source/img", [Node None [("srcset", srcset)] []])
       :: absolute p |}.

(** A page with genres added. *)
Definition with_genres (p : page) (genres : list string) : page :=
  {| absolute := ("//div[@class='main_genre']/a", map anchor genres)
                 :: absolute p |}.

(** The record extracted from a page that is served for every URL, if
    there is one. *)
Definition record_of (p : page) (prefs : Prefs) (url : string)
  : Metadata string :=
  match snd (DLsiteMetadata._lookup_metadata (host (only p)) prefs (Some url)
               init) with
  | Return (Some r) => r
  | _ => Metadata_new EmptyString
  end.

(** A circle with a comma in its name. *)
Definition page_comma : page :=
  product "Sixth Book" [row "Circle" []] [] [anchor "Foo, Inc"].

Definition page_genres : page :=
  with_genres (product "Seventh Book" [] [row "Genre" []] [])
    ["Comedy"; "School"].

Definition page_omnibus_cover : page :=
  with_image (product "The Great Omnibus, Vol. 1" [] [] [])
    "//img.dlsite.jp/BJ004.jpg".

(** The shop, with a cover on the page of the first book. *)
Definition shop_with_cover : web :=
  shop_serving (Some (with_image page_a "//img.dlsite.jp/BJ001.jpg"))
    (Some page_b).

(** The French locale, where [Publisher] and [Circle] have one label. *)
Definition prefs_fr : Prefs :=
  {| country := "fr_FR"; num_matches := 1; title_blacklist := "";
     tag_blacklist := ""; remove_leading_zeroes := false |}.

Definition translation_fr : L10n.Translation :=
  {| L10n.Author1 := "Auteur"; L10n.Publisher := "1%"; L10n.Circle := "1%";
     L10n.Label := "Label"; L10n.Release_date := "Date de sortie";
     L10n.format := "%d/%m/%Y"; L10n.Author2 := "Auteur";
     L10n.Series_name := "Série"; L10n.Event := "Événement";
     L10n.Comic_Market := "Comic Market "; L10n.Genre := "Genre" |}.

Definition page_fr : page :=
  product "Livre" [row "1%" []] [] [anchor "Cercle X"].



End Pages.

(** ** Notions used in the statements *)



(** What [identify] does to a record before it puts it on the queue. *)
Definition ranked {D} (len_urls index : nat) (md : Metadata D) : Metadata D :=
  let md := set_source_relevance md (Some index) in
  if negb (len_urls =? 1) then set_isbn md (md_identifiers md !! "dlsite")
  else md.

(** A law of XPath: a path that starts at the root gives the same elements
    from every element of a document. *)
Definition absolute_paths_global (H : Host) : Prop :=
  forall (tree : Element H) (q : string) (x : Element H) (p : string),
    In x (xpath H tree q) ->
    PyStr.starts_with "/" p = true ->
    xpath H x p = xpath H tree p.

(** The fields that no row of the two tables writes. *)
Definition same_origin {D} (md md' : Metadata D) : Prop :=
  md_title md' = md_title md /\ md_identifiers md' = md_identifiers md.

(** The state after [k] more requests of the same URL. *)
Definition after_requests {D} (u : string) (k : nat) (s s' : State D)
  : Prop :=
  requests s' = requests s ++ repeat u k
  /\ cover_urls s' = cover_urls s
  /\ result_queue s' = result_queue s.

Section Notions.

Context (H : Host) (prefs : Prefs).

Import DLsiteMetadata.

(** A record returned by [_lookup_metadata] was parsed from a fetched
    product page and went through both checks. *)
Definition extracted (url : option string) (s : State (Date H))
    (md : Metadata (Date H)) : Prop :=
  exists u tree final_url title,
    url = Some u
    /\ open_novisit H (requests s) u = Some (tree, final_url)
    /\ PyStr.contains "/keyword" final_url = false
    /\ parse_page H prefs u tree = Return (title, md)
    /\ set_bool (_check_title_blacklist prefs title) = false
    /\ set_bool (_check_tag_blacklist prefs (md_tags md)) = false.

(** A record on the queue, with the index it was given: it is the record
    extracted for the candidate at that index, ranked. *)
Definition picked (len_urls : nat) (urls : list (option string)) (first : nat)
    (pick : nat * Metadata (Date H)) : Prop :=
  first <= fst pick
  /\ exists url s0 md,
      urls !! (fst pick - first) = Some url
      /\ snd (_lookup_metadata H prefs url s0) = Return (Some md)
      /\ snd pick = ranked len_urls (fst pick) md.

End Notions.

(** A string made of the character ['0'] only. *)
Fixpoint only_zeroes (s : string) : Prop :=
  match s with
  | EmptyString => True
  | String a s' => a = "0"%char /\ only_zeroes s'
  end.

(** The four name spaces of the tags. *)
Definition namespaced (tag : string) : Prop :=
  PyStr.starts_with "group." tag = true
  \/ PyStr.starts_with "label." tag = true
  \/ PyStr.starts_with "event." tag = true
  \/ PyStr.starts_with "genre." tag = true.

(** What a row of one of the two tables may do to the record and to the
    local list [tags]: the tags, the [isbn] and the rank of the record
    stay, and the list grows by tags with a name space. *)
Definition row_effect {D} (acc acc' : Metadata D * list string) : Prop :=
  md_tags (fst acc') = md_tags (fst acc)
  /\ md_isbn (fst acc') = md_isbn (fst acc)
  /\ md_source_relevance (fst acc') = md_source_relevance (fst acc)
  /\ exists new, snd acc' = snd acc ++ new /\ Forall namespaced new.

(** [x.replace(',', ' ')] character by character. *)
Definition comma_to_space (a : ascii) : ascii :=
  if Ascii.eqb a ","%char then " "%char else a.

(** A host of covers where every URL has a cover, and where a record has
    no field called [dlsite], as [Metadata.get] finds none. *)
Definition covers_everywhere : CoverHost string :=
  {| Cover := string; read_cover := fun _ url => Some ("cover of " +:+ url);
     metadata_get := fun _ _ => None |}.

(** The records [identify] puts for the records extracted, the first of
    them with the index [first]. *)
Fixpoint ranked_from {D} (len_urls first : nat) (mds : list (Metadata D))
  : list (Metadata D) :=
  match mds with
  | [] => []
  | md :: mds' => ranked len_urls first md :: ranked_from len_urls (first + 1) mds'
  end.




(** A string of ASCII characters: every byte is below 128.  On such
    strings [PyStr.lower] and [PyStr.strip] are [str.lower] and
    [str.strip]. *)
Fixpoint ascii_only (s : string) : bool :=
  match s with
  | EmptyString => true
  | String a s' => (nat_of_ascii a <? 128) && ascii_only s'
  end.

(** * Properties *)

Example strip_ex : PyStr.strip "  Foo Bar " = "Foo Bar".
Proof. reflexivity. Qed.
Example split_ex : PyStr.split ","%char "a,,b" = ["a"; ""; "b"].
Proof. reflexivity. Qed.
Example split_empty_ex : PyStr.split ","%char "" = [""].
Proof. reflexivity. Qed.
Example rsplit1_ex : PyStr.rsplit1 "/"%char "a/b/c" = ["a/b"; "c"].
Proof. reflexivity. Qed.
Example replace_ex : PyStr.replace "Comic Market " "C" "Comic Market 103" = "C103".
Proof. reflexivity. Qed.
Example replace_overlap_ex : PyStr.replace "aa" "b" "aaa" = "ba".
Proof. reflexivity. Qed.
Example quote_ex : PyStr.quote "a b/c" = "a%20b/c".
Proof. reflexivity. Qed.
Example remove_punctuation_ex :
  PyStr.remove_punctuation "The Great Omnibus, Vol. 1" = "The Great Omnibus Vol 1".
Proof. reflexivity. Qed.

Example translations_ja :
  L10n.Author1 <$> L10n.assoc "ja_JP" L10n.TRANSLATIONS = Some "著者".
Proof. reflexivity. Qed.
Example translations_default_option :
  L10n.assoc "日本語" L10n.TRANSLATIONS = None.
Proof. reflexivity. Qed.

(** ** Splitting strings *)

Section SplitFacts.

Import PyStr.

Lemma has_char_app c a b :
  has_char c (a +:+ b) = has_char c a || has_char c b.
Proof.
  induction a as [|x a IH]; simpl; [reflexivity|].
  rewrite IH. apply orb_assoc.
Qed.

Lemma split_not_nil sep s : split sep s <> [].
Proof.
  destruct s as [|a s]; simpl; [discriminate|].
  destruct (Ascii.eqb a sep); [discriminate|].
  destruct (split sep s); discriminate.
Qed.

(** A string without the separator is its own single piece. *)
Lemma split_without sep s : has_char sep s = false -> split sep s = [s].
Proof.
  induction s as [|a s IH]; simpl; [reflexivity|].
  intros Hc. apply orb_false_iff in Hc as [Ha Hs].
  rewrite Ha, (IH Hs). reflexivity.
Qed.

(** The first piece is what stands before the first separator. *)
Lemma hd_split_app sep a b :
  has_char sep a = false ->
  List.hd EmptyString (split sep (a +:+ String sep b)) = a.
Proof.
  induction a as [|x a IH]; simpl; intros Hc.
  - rewrite Ascii.eqb_refl. reflexivity.
  - apply orb_false_iff in Hc as [Hx Ha]. rewrite Hx.
    specialize (IH Ha).
    destruct (split sep (a +:+ String sep b)) as [|p ps] eqn:E.
    + exfalso. exact (split_not_nil _ _ E).
    + simpl in IH. subst p. reflexivity.
Qed.

Lemma last_cons_cons {A} (x y : A) l d :
  List.last (x :: y :: l) d = List.last (y :: l) d.
Proof. reflexivity. Qed.

(** Cutting at a separator: the pieces of the right part come last, after
    at least one piece of the left part. *)
Lemma split_app_sep sep a b :
  exists p ps, split sep (a +:+ String sep b) = p :: ps ++ split sep b.
Proof.
  induction a as [|x a (p & ps & IH)]; simpl.
  - rewrite Ascii.eqb_refl. exists EmptyString, []. reflexivity.
  - destruct (Ascii.eqb x sep).
    + exists EmptyString, (p :: ps). rewrite IH. reflexivity.
    + rewrite IH. exists (String x p), ps. reflexivity.
Qed.

Lemma last_app_not_nil {A} (l1 l2 : list A) d :
  l2 <> [] -> List.last (l1 ++ l2) d = List.last l2 d.
Proof.
  intros Hne. induction l1 as [|x l1 IH]; [reflexivity|].
  simpl app. destruct (l1 ++ l2) eqn:E.
  - destruct l1; [simpl in E; contradiction | discriminate].
  - rewrite last_cons_cons. exact IH.
Qed.

Lemma last_split_app sep a b :
  List.last (split sep (a +:+ String sep b)) EmptyString
  = List.last (split sep b) EmptyString.
Proof.
  destruct (split_app_sep sep a b) as (p & ps & ->).
  change (p :: ps ++ split sep b) with ((p :: ps) ++ split sep b).
  apply last_app_not_nil, split_not_nil.
Qed.

Lemma split_single sep s p : split sep s = [p] -> p = s.
Proof.
  revert p. induction s as [|a s IH]; simpl; intros p E.
  - congruence.
  - destruct (Ascii.eqb a sep).
    + exfalso. inversion E as [[E1 E2]]. exact (split_not_nil _ _ E2).
    + destruct (split sep s) as [|q qs] eqn:Es.
      * exfalso. exact (split_not_nil _ _ Es).
      * inversion E; subst. f_equal. apply IH. reflexivity.
Qed.

(** The last piece of [rsplit(sep, 1)] is the last piece of [split(sep)]. *)
Lemma last_rsplit1 sep s :
  List.last (rsplit1 sep s) EmptyString
  = List.last (split sep s) EmptyString.
Proof.
  unfold rsplit1. destruct (split sep s) as [|p [|q r]] eqn:E.
  - exfalso. exact (split_not_nil _ _ E).
  - simpl. symmetry. apply split_single with sep. exact E.
  - reflexivity.
Qed.

End SplitFacts.

(** ** The product URL and the identifier read back from it *)

Lemma country_plain (c : string) :
  In c (map fst L10n.COUNTRIES) ->
  PyStr.has_char "/" c = false /\ PyStr.has_char "." c = false.
Proof.
  simpl. intros Hc.
  repeat (destruct Hc as [<-|Hc]; [split; reflexivity|]).
  contradiction.
Qed.

(** C7.  For a product identifier without ['/'], ['.'] and ['?'] and a
    locale among the 14 of [COUNTRIES], the identifier that
    [_lookup_metadata] reads from the product URL of [get_book_url] and
    [identify] is the identifier the URL was built from. *)
Theorem product_url_roundtrip (prefs : Prefs) (product_id : string) :
  In (country prefs) (map fst L10n.COUNTRIES) ->
  PyStr.has_char "/" product_id = false ->
  PyStr.has_char "." product_id = false ->
  PyStr.has_char "?" product_id = false ->
  DLsiteMetadata.url_product_id (DLsiteMetadata.product_url prefs product_id)
  = product_id.
Proof.
  intros Hc Hslash Hdot Hq.
  destruct (country_plain _ Hc) as [Lslash Ldot].
  unfold DLsiteMetadata.url_product_id, DLsiteMetadata.product_url.
  set (rest := product_id +:+ String "?" ("locale=" +:+ country prefs)).
  change (L10n.BASE_URL +:+ "/books/work/=/product_id/" +:+ product_id
            +:+ "?locale=" +:+ country prefs)
    with ("https://www.dlsite.com/books/work/=/product_id" +:+ String "/" rest).
  rewrite last_rsplit1, last_split_app.
  assert (Hrest_slash : PyStr.has_char "/" rest = false).
  { unfold rest. rewrite has_char_app, Hslash. simpl. exact Lslash. }
  assert (Hrest_dot : PyStr.has_char "." rest = false).
  { unfold rest. rewrite has_char_app, Hdot. simpl. exact Ldot. }
  rewrite (split_without _ _ Hrest_slash). simpl List.last.
  rewrite (split_without _ _ Hrest_dot). simpl List.hd.
  unfold rest. apply hd_split_app. exact Hq.
Qed.

(** [get_book_url] gives that URL for a non-empty identifier. *)
Lemma get_book_url_product_url prefs (identifiers : gmap string string) product_id :
  identifiers !! "dlsite" = Some product_id ->
  DLsiteMetadata.str_bool product_id = true ->
  DLsiteMetadata.get_book_url prefs identifiers
  = Some ("product_id", product_id, DLsiteMetadata.product_url prefs product_id).
Proof.
  intros Hid Hne. unfold DLsiteMetadata.get_book_url. rewrite Hid, Hne.
  reflexivity.
Qed.


Lemma product_url_roundtrip_witness :
  DLsiteMetadata.product_url Pages.prefs_ja "BJ01234567"
  = "https://www.dlsite.com/books/work/=/product_id/BJ01234567?locale=ja_JP"
  /\ DLsiteMetadata.url_product_id
       (DLsiteMetadata.product_url Pages.prefs_ja "BJ01234567") = "BJ01234567".
Proof.
  split; [reflexivity|].
  apply (product_url_roundtrip Pages.prefs_ja "BJ01234567");
    [simpl; tauto | reflexivity | reflexivity | reflexivity].
Defined.

(** ** What the extraction keeps and what it returns *)

Lemma obind_Return {A B} (m : outcome A) (k : A -> outcome B) b :
  obind m k = Return b -> exists a, m = Return a /\ k a = Return b.
Proof. destruct m; simpl; [eauto | discriminate]. Qed.

(** Breaks the first [let?] of a hypothesis [E] that says a computation
    returned: [a] is the value bound, [Ea] says where it comes from. *)
Ltac step E a Ea := apply obind_Return in E as (a & Ea & E).

(** Case analysis on the tests and matches at the head of [E]. *)
Ltac branches E :=
  repeat match type of E with
         | (if ?c then _ else _) = _ => destruct c eqn:?
         | match ?o with _ => _ end = _ => destruct o eqn:?
         end.

Section Extraction.

Context (H : Host) (prefs : Prefs).

Abbreviation Md := (Metadata (Date H)).
Abbreviation St := (State (Date H)).

Import DLsiteMetadata.

Lemma for_each_invariant {A S} (P : S -> Prop) (body : A -> S -> outcome S) :
  (forall x acc acc', P acc -> body x acc = Return acc' -> P acc') ->
  forall xs acc acc', P acc -> for_each body xs acc = Return acc' -> P acc'.
Proof.
  intros Hbody xs. induction xs as [|x xs IH]; simpl; intros acc acc' HP E.
  - congruence.
  - step E acc1 E1. eauto.
Qed.

Lemma for_each_app {A S} (body : A -> S -> outcome S) xs ys acc :
  for_each body (xs ++ ys) acc
  = (let? acc' := for_each body xs acc in for_each body ys acc').
Proof.
  revert acc. induction xs as [|x xs IH]; simpl; intros acc; [reflexivity|].
  destruct (body x acc); simpl; [apply IH | reflexivity].
Qed.


Lemma maker_row_same_origin x md tags md' tags' :
  maker_row H prefs x (md, tags) = Return (md', tags') -> same_origin md md'.
Proof.
  unfold maker_row, same_origin. intros E.
  step E descriptor Ed. step E t Et.
  branches E;
    repeat (let a := fresh "a" in let Ea := fresh "Ea" in step E a Ea);
    inversion E; subst; auto.
Qed.

Lemma outline_row_same_origin x md tags md' tags' :
  outline_row H prefs x (md, tags) = Return (md', tags') -> same_origin md md'.
Proof.
  unfold outline_row, same_origin. intros E.
  step E descriptor Ed. step E t Et. step E md1 E1.
  assert (Ha : md_title md1 = md_title md
               /\ md_identifiers md1 = md_identifiers md).
  { destruct (String.eqb descriptor (L10n.Release_date t)).
    - step E1 a Ea. branches E1; inversion E1; auto.
    - inversion E1; auto. }
  destruct Ha as [<- <-].
  branches E;
    repeat (let a := fresh "a" in let Ea := fresh "Ea" in step E a Ea);
    branches E; inversion E; subst; auto.
Qed.

Lemma rows_same_origin (row : Element H -> Md * list string -> outcome (Md * list string)) :
  (forall x md tags md' tags',
      row x (md, tags) = Return (md', tags') -> same_origin md md') ->
  forall xs md tags md' tags',
    for_each row xs (md, tags) = Return (md', tags') -> same_origin md md'.
Proof.
  intros Hrow xs md tags md' tags' E.
  apply (for_each_invariant (fun acc => same_origin md (fst acc)) row)
    with (xs := xs) (acc := (md, tags)) (acc' := (md', tags')) in E;
    [exact E | | split; reflexivity].
  intros x [m t] [m' t'] [P1 P2] Ex. apply Hrow in Ex as [Q1 Q2].
  simpl in *. split; congruence.
Qed.

(** The record of a page carries the title read from the page and the
    identifier read from the URL. *)
Lemma parse_page_origin url tree title md :
  parse_page H prefs url tree = Return (title, md) ->
  md_title md = title
  /\ md_identifiers md = {[ "dlsite" := url_product_id url ]}.
Proof.
  unfold parse_page. intros E.
  step E e Ee. step E title0 Etitle. step E u Elocale.
  step E acc1 Emaker. destruct acc1 as [md1 tags1].
  step E acc2 Eoutline. destruct acc2 as [md2 tags2].
  apply rows_same_origin in Emaker; [|apply maker_row_same_origin].
  apply rows_same_origin in Eoutline; [|apply outline_row_same_origin].
  destruct Emaker as [T1 I1], Eoutline as [T2 I2]. simpl in T1, I1.
  inversion E; subst.
  destruct tags2, (xpath H tree "//div[@class='work_parts_area']");
    simpl; split; congruence.
Qed.

End Extraction.

(** ** The result queue and the blacklists *)


Section Queue.

Context (H : Host) (prefs : Prefs).

Import DLsiteMetadata.

Lemma set_bool_false (x : option (gset string)) :
  set_bool x = false -> x = None \/ x = Some ∅.
Proof.
  destruct x as [X|]; simpl; [|auto].
  intros E. apply negb_false_iff, bool_decide_eq_true in E. subst. auto.
Qed.



Lemma get_webpage_queue url (s : State (Date H)) :
  result_queue (fst (_get_webpage H url s)) = result_queue s.
Proof.
  unfold _get_webpage. destruct url as [u|]; [|reflexivity].
  destruct (open_novisit H (requests s) u) as [[tree final]|]; reflexivity.
Qed.

Lemma cache_cover_queue url tree (s : State (Date H)) :
  result_queue (fst (cache_cover H url tree s)) = result_queue s.
Proof.
  unfold cache_cover, bind, lift.
  destruct (xpath H tree "//picture/source/img") as [|e l]; [reflexivity|].
  destruct (str_add "https:" (get H e "srcset")); reflexivity.
Qed.


Lemma lookup_metadata_inv url (s : State (Date H)) :
  result_queue (fst (_lookup_metadata H prefs url s)) = result_queue s
  /\ forall md, snd (_lookup_metadata H prefs url s) = Return (Some md) ->
                extracted H prefs url s md.
Proof.
  unfold _lookup_metadata, bind, _get_webpage, extracted.
  destruct url as [u|]; [|split; [reflexivity | discriminate]].
  destruct (open_novisit H (requests s) u) as [[tree final]|] eqn:Eopen;
    [|split; [reflexivity | discriminate]].
  destruct (PyStr.contains "/keyword" final) eqn:Esearch;
    [split; [reflexivity | discriminate]|].
  unfold lift.
  destruct (parse_page H prefs u tree) as [[title md]|e] eqn:Eparse;
    [|split; [reflexivity | discriminate]].
  destruct (cache_cover H u tree (record_request H u s)) as [s1 [[]|e]] eqn:Ec;
    pose proof (cache_cover_queue u tree (record_request H u s)) as Hq;
    rewrite Ec in Hq; simpl in Hq.
  - destruct (set_bool (_check_title_blacklist prefs title)) eqn:Et;
      [split; [exact Hq | discriminate]|].
    destruct (set_bool (_check_tag_blacklist prefs (md_tags md))) eqn:Eg;
      [split; [exact Hq | discriminate]|].
    split; [exact Hq|]. simpl. intros md0 [= <-].
    exists u, tree, final, title. auto 10.
  - split; [exact Hq | discriminate].
Qed.

End Queue.

(** ** The loop of [identify] over the candidates *)

Section Candidates.

Context (H : Host) (prefs : Prefs).

Import DLsiteMetadata.

Abbreviation Rec := (Metadata (Date H)).


Lemma picked_shift len_urls url urls first pick :
  picked H prefs len_urls urls (first + 1) pick ->
  picked H prefs len_urls (url :: urls) first pick.
Proof.
  intros (Hle & u & s0 & md & Hu & He & Hr). split; [lia|].
  exists u, s0, md. split; [|auto].
  replace (fst pick - first) with (S (fst pick - (first + 1))) by lia.
  exact Hu.
Qed.

(** The loop always ends with a plain return; what it adds to the queue
    are picked records, in the order of their indices. *)
Lemma identify_loop_picks len_urls urls first (s : State (Date H)) :
  snd (identify_loop H prefs len_urls urls first s) = Return tt
  /\ exists picks,
      result_queue (fst (identify_loop H prefs len_urls urls first s))
      = result_queue s ++ map snd picks
      /\ StronglySorted lt (map fst picks)
      /\ Forall (picked H prefs len_urls urls first) picks.
Proof.
  revert first s. induction urls as [|url urls IH]; intros first s.
  - split; [reflexivity|]. exists []. simpl. rewrite app_nil_r.
    repeat split; constructor.
  - simpl.
    destruct (lookup_metadata_inv H prefs url s) as [Hq _].
    destruct (_lookup_metadata H prefs url s) as [s1 [[md|]|e]] eqn:E;
      simpl in Hq.
    + unfold bind, put. simpl.
      match goal with
      | |- context [identify_loop H prefs len_urls urls (first + 1) ?s2] =>
          destruct (IH (first + 1) s2) as (Hret & picks & Hpq & Hsort & Hall)
      end.
      split; [exact Hret|].
      exists ((first, ranked len_urls first md) :: picks). split; [|split].
      * rewrite Hpq. simpl. rewrite Hq, <- app_assoc. reflexivity.
      * simpl. constructor; [exact Hsort|].
        rewrite Forall_map. eapply Forall_impl; [exact Hall|].
        intros p [Hle _]. simpl. lia.
      * constructor.
        -- split; [simpl; lia|]. exists url, s, md. simpl.
           rewrite Nat.sub_diag, E. auto.
        -- eapply Forall_impl; [exact Hall|].
           intros p. apply picked_shift.
    + destruct (IH (first + 1) s1) as (Hret & picks & Hpq & Hsort & Hall).
      split; [exact Hret|]. exists picks. split; [|split].
      * rewrite Hpq, Hq. reflexivity.
      * exact Hsort.
      * eapply Forall_impl; [exact Hall|]. intros p. apply picked_shift.
    + split; [reflexivity|]. exists []. simpl. rewrite app_nil_r.
      repeat split; [exact Hq | constructor | constructor].
Qed.

End Candidates.

(** ** The search: requests made and candidates returned *)

Section Search.

Context (H : Host) (prefs : Prefs).

Import DLsiteMetadata.

(** [_get_webpage] on a URL makes one request and touches nothing else. *)
Lemma get_webpage_request u (s : State (Date H)) :
  fst (_get_webpage H (Some u) s) = record_request H u s
  /\ exists page, snd (_get_webpage H (Some u) s) = Return page.
Proof.
  unfold _get_webpage.
  destruct (open_novisit H (requests s) u) as [[tree final]|];
    split; eauto.
Qed.


Lemma after_requests_step u k (s s' : State (Date H)) :
  after_requests u k (record_request H u s) s' ->
  after_requests u (S k) s s'.
Proof.
  intros (Hr & Hc & Hq). repeat split; [|exact Hc | exact Hq].
  rewrite Hr. simpl. rewrite <- app_assoc. reflexivity.
Qed.

Lemma after_requests_refl u (s : State (Date H)) : after_requests u 0 s s.
Proof. repeat split. simpl. rewrite app_nil_r. reflexivity. Qed.

(** The loop makes at most [num_matches - i] requests, all of the search
    URL, and only appends to [results]. *)
Lemma pagination_requests fuel query results i (s : State (Date H)) :
  exists k,
    k <= num_matches prefs - i
    /\ after_requests (_get_search_url query) k s
         (fst (pagination H prefs fuel query results i s))
    /\ forall urls,
        snd (pagination H prefs fuel query results i s) = Return urls ->
        exists more, urls = results ++ more.
Proof.
  revert results i s. induction fuel as [|fuel IH]; intros results i s.
  - exists 0. split; [lia|]. split; [apply after_requests_refl|].
    simpl. intros urls [= <-]. exists []. rewrite app_nil_r. reflexivity.
  - simpl.
    destruct ((length results <? num_matches prefs) && (i <? num_matches prefs))
      eqn:Econd.
    + apply andb_true_iff in Econd as [_ Hi]. apply Nat.ltb_lt in Hi.
      unfold bind.
      destruct (get_webpage_request (_get_search_url query) s)
        as [Hs [page Hp]].
      destruct (_get_webpage H (Some (_get_search_url query)) s)
        as [s1 o] eqn:E.
      simpl in Hs, Hp. subst s1 o. destruct page as [[tree|] is_search].
      * destruct (element_bool H tree && is_search).
        -- destruct (_get_search_matches H tree) as [more|].
           ++ destruct (IH (results ++ more) (i + 1)
                          (record_request H (_get_search_url query) s))
                as (k & Hk & Hafter & Hurls).
              exists (S k). split; [lia|].
              split; [apply after_requests_step, Hafter|].
              intros urls Eu. destruct (Hurls urls Eu) as [more' ->].
              exists (more ++ more'). rewrite app_assoc. reflexivity.
           ++ exists 1. split; [lia|].
              split; [apply after_requests_step, after_requests_refl|].
              discriminate.
        -- exists 1. split; [lia|].
           split; [apply after_requests_step, after_requests_refl|].
           discriminate.
      * exists 1. split; [lia|].
        split; [apply after_requests_step, after_requests_refl|].
        discriminate.
    + exists 0. split; [lia|]. split; [apply after_requests_refl|].
      simpl. intros urls [= <-]. exists []. rewrite app_nil_r. reflexivity.
Qed.

(** [num_matches - i] iterations are all the loop can make: more fuel
    changes nothing. *)
Lemma pagination_fuel fuel fuel' query results i (s : State (Date H)) :
  num_matches prefs - i <= fuel ->
  num_matches prefs - i <= fuel' ->
  pagination H prefs fuel query results i s
  = pagination H prefs fuel' query results i s.
Proof.
  revert fuel' results i s.
  induction fuel as [|fuel IH]; intros [|fuel'] results i s Hf Hf';
    simpl; try reflexivity.
  - assert (Hi : (i <? num_matches prefs) = false)
      by (apply Nat.ltb_ge; lia).
    rewrite Hi, andb_false_r. reflexivity.
  - assert (Hi : (i <? num_matches prefs) = false)
      by (apply Nat.ltb_ge; lia).
    rewrite Hi, andb_false_r. reflexivity.
  - destruct ((length results <? num_matches prefs) && (i <? num_matches prefs))
      eqn:Econd; [|reflexivity].
    apply andb_true_iff in Econd as [_ Hi]. apply Nat.ltb_lt in Hi.
    unfold bind.
    destruct (_get_webpage H (Some (_get_search_url query)) s)
      as [s1 [[[tree|] is_search]|e]]; try reflexivity.
    destruct (element_bool H tree && is_search); [|reflexivity].
    destruct (_get_search_matches H tree) as [more|]; [|reflexivity].
    apply IH; lia.
Qed.

(** [_perform_query] makes at most [max 1 num_matches] requests, all of
    the search URL; with a positive [num_matches] it returns at most
    [num_matches] candidates. *)
Lemma perform_query_requests query (s : State (Date H)) :
  exists k,
    k <= Nat.max 1 (num_matches prefs)
    /\ after_requests (_get_search_url query) k s
         (fst (_perform_query H prefs query s))
    /\ forall urls,
        snd (_perform_query H prefs query s) = Return urls ->
        1 <= num_matches prefs -> length urls <= num_matches prefs.
Proof.
  unfold _perform_query, bind.
  destruct (get_webpage_request (_get_search_url query) s) as [Hs [page Hp]].
  destruct (_get_webpage H (Some (_get_search_url query)) s) as [s1 o] eqn:E.
  simpl in Hs, Hp. subst s1 o. destruct page as [[tree|] is_search].
  - destruct is_search; simpl.
    + destruct (_get_search_matches H tree) as [results|].
      * destruct (pagination_requests (num_matches prefs) query results 1
                    (record_request H (_get_search_url query) s))
          as (k & Hk & Hafter & _).
        destruct (pagination H prefs (num_matches prefs) query results 1
                    (record_request H (_get_search_url query) s))
          as [s2 [urls|e]]; simpl in *.
        -- exists (S k). split; [lia|].
           split; [apply after_requests_step, Hafter|].
           intros urls' [= <-] _. rewrite length_firstn. lia.
        -- exists (S k). split; [lia|].
           split; [apply after_requests_step, Hafter | discriminate].
      * exists 1. split; [lia|].
        split; [apply after_requests_step, after_requests_refl|].
        discriminate.
    + exists 1. split; [lia|].
      split; [apply after_requests_step, after_requests_refl|].
      intros urls [= <-] Hn. simpl. exact Hn.
  - exists 1. split; [lia|].
    split; [apply after_requests_step, after_requests_refl|].
    intros urls [= <-] _. simpl. lia.
Qed.

(** With an identifier, the candidate is the product URL, whatever the
    request for it gave; one request is made, for that URL. *)
Lemma identify_urls_known title authors (identifiers : gmap string string)
    product_id (s : State (Date H)) :
  identifiers !! "dlsite" = Some product_id ->
  str_bool product_id = true ->
  identify_urls H prefs title authors identifiers s
  = (record_request H (product_url prefs product_id) s,
     Return [Some (product_url prefs product_id)]).
Proof.
  intros Hid Hne. unfold identify_urls. rewrite Hid, Hne. unfold bind.
  destruct (get_webpage_request (product_url prefs product_id) s)
    as [Hs [page Hp]].
  destruct (_get_webpage H (Some (product_url prefs product_id)) s)
    as [s1 o]. simpl in Hs, Hp. subst. reflexivity.
Qed.

(** Without one, the candidates are those of the search, if there is
    something to search for. *)
Lemma identify_urls_search title authors (identifiers : gmap string string)
    (s : State (Date H)) :
  identifiers !! "dlsite" = None
  \/ identifiers !! "dlsite" = Some EmptyString ->
  identify_urls H prefs title authors identifiers s
  = if str_bool (_generate_query H prefs title authors)
    then _perform_query H prefs (_generate_query H prefs title authors) s
    else (s, Return []).
Proof.
  intros [Hid|Hid]; unfold identify_urls; rewrite Hid; simpl;
    destruct (str_bool (_generate_query H prefs title authors));
    reflexivity.
Qed.

Lemma identify_urls_queue title authors identifiers (s : State (Date H)) :
  result_queue (fst (identify_urls H prefs title authors identifiers s))
  = result_queue s.
Proof.
  destruct (identifiers !! "dlsite") as [[|c pid]|] eqn:Hid.
  - rewrite identify_urls_search by auto.
    destruct (str_bool _); [|reflexivity].
    destruct (perform_query_requests (_generate_query H prefs title authors) s)
      as (k & _ & (_ & _ & Hq) & _). exact Hq.
  - erewrite identify_urls_known by (eauto; reflexivity). reflexivity.
  - rewrite identify_urls_search by auto.
    destruct (str_bool _); [|reflexivity].
    destruct (perform_query_requests (_generate_query H prefs title authors) s)
      as (k & _ & (_ & _ & Hq) & _). exact Hq.
Qed.

End Search.

(** ** Claims about [identify] *)

Section Identify.

Context (H : Host) (prefs : Prefs).

Import DLsiteMetadata.

Lemma ranked_fields len_urls index (md : Metadata (Date H)) :
  md_title (ranked len_urls index md) = md_title md
  /\ md_tags (ranked len_urls index md) = md_tags md
  /\ md_identifiers (ranked len_urls index md) = md_identifiers md
  /\ md_source_relevance (ranked len_urls index md) = Some index
  /\ (len_urls <> 1 ->
      md_isbn (ranked len_urls index md) = md_identifiers md !! "dlsite").
Proof.
  unfold ranked. destruct (len_urls =? 1) eqn:E; simpl; repeat split.
  apply Nat.eqb_eq in E. contradiction.
Qed.


Lemma identify_unfold title authors identifiers (s : State (Date H)) :
  identify H prefs title authors identifiers s
  = match identify_urls H prefs title authors identifiers s with
    | (s1, Return urls) => identify_loop H prefs (length urls) urls 0 s1
    | (s1, Raise e) => (s1, Raise e)
    end.
Proof. reflexivity. Qed.


(** C6.  When the first half of [identify] gave more than one candidate,
    the records added to the queue come with strictly increasing indices;
    each record has its index as [source_relevance], the candidate at
    that index is the URL it was extracted from, and its [isbn] is its
    [dlsite] identifier. *)
Theorem identify_ranks title authors identifiers (s : State (Date H)) urls :
  snd (identify_urls H prefs title authors identifiers s) = Return urls ->
  1 < length urls ->
  exists picks : list (nat * Metadata (Date H)),
    result_queue (fst (identify H prefs title authors identifiers s))
    = result_queue s ++ map snd picks
    /\ StronglySorted lt (map fst picks)
    /\ Forall (fun pick =>
                 md_source_relevance (snd pick) = Some (fst pick)
                 /\ exists u,
                     urls !! fst pick = Some (Some u)
                     /\ md_identifiers (snd pick) !! "dlsite"
                        = Some (url_product_id u)
                     /\ md_isbn (snd pick) = Some (url_product_id u))
              picks.
Proof.
  intros Hurls Hlen. rewrite identify_unfold.
  pose proof (identify_urls_queue H prefs title authors identifiers s) as Hq.
  destruct (identify_urls H prefs title authors identifiers s)
    as [s1 o]; simpl in Hq, Hurls. subst o.
  destruct (identify_loop_picks H prefs (length urls) urls 0 s1)
    as (_ & picks & Hpq & Hsort & Hall).
  exists picks. split; [rewrite Hpq, Hq; reflexivity|].
  split; [exact Hsort|].
  eapply Forall_impl; [exact Hall|].
  intros [i r] (_ & url & s0 & md & Hu & Hlook & Hr). simpl in *. subst r.
  rewrite Nat.sub_0_r in Hu.
  destruct (lookup_metadata_inv H prefs url s0) as [_ Hex].
  apply Hex in Hlook
    as (u & tree & final & title0 & -> & _ & _ & Hparse & _ & _).
  apply parse_page_origin in Hparse as [_ Hid].
  destruct (ranked_fields (length urls) i md) as (_ & _ & Ei & Er & Eisbn).
  split; [exact Er|]. exists u. split; [exact Hu|].
  rewrite Ei, Eisbn by lia. rewrite Hid, lookup_singleton_eq. auto.
Qed.

End Identify.


Section IdentifyWitnesses.

Import DLsiteMetadata Canned Pages.

Lemma identify_ranks_witness :
  exists picks : list (nat * Metadata string),
    result_queue
      (fst (identify (host shop) (prefs_en 2 "" "") (Some "foo") None ∅ init))
    = [] ++ map snd picks
    /\ StronglySorted lt (map fst picks)
    /\ Forall (fun pick =>
                 md_source_relevance (snd pick) = Some (fst pick)
                 /\ exists u,
                     [Some url_a; Some url_b] !! fst pick = Some (Some u)
                     /\ md_identifiers (snd pick) !! "dlsite"
                        = Some (url_product_id u)
                     /\ md_isbn (snd pick) = Some (url_product_id u))
              picks.
Proof.
  apply (identify_ranks (host shop) (prefs_en 2 "" "") (Some "foo") None ∅
           init [Some url_a; Some url_b]).
  - vm_compute. reflexivity.
  - simpl. lia.
Defined.


Example identify_shop_ranks :
  map (fun r => (md_title r, md_source_relevance r, md_isbn r))
      (result_queue
         (fst (identify (host shop) (prefs_en 2 "" "") (Some "foo") None ∅ init)))
  = [("First Book", Some 0, Some "BJ001"); ("Second Book", Some 1, Some "BJ002")].
Proof. vm_compute. reflexivity. Qed.

End IdentifyWitnesses.

(** ** The known identifier and the search that finds no list *)

Section Failures.

Import DLsiteMetadata Canned Pages.

(** C2.  With the identifier [BJ001] and a shop that answers no request,
    the request for the product URL fails, and yet the URL is the
    candidate: the test [if product_id_urls] is made on the pair that
    [_get_webpage] returns, which is never empty.  The extraction then
    requests the same URL once more.  No search URL is requested. *)
Theorem identify_known_identifier_offline :
  let prefs := prefs_en 1 "" "" in
  let url := product_url prefs "BJ001" in
  open_novisit (host offline) [] url = None
  /\ identify_urls (host offline) prefs None None {[ "dlsite" := "BJ001" ]} init
     = ({| requests := [url]; cover_urls := ∅; result_queue := [] |},
        Return [Some url])
  /\ identify (host offline) prefs None None {[ "dlsite" := "BJ001" ]} init
     = ({| requests := [url; url]; cover_urls := ∅; result_queue := [] |},
        Return tt).
Proof. vm_compute. repeat split. Qed.

(** C3.  A search answered by a page of results without the
    [search_result_list] container: [_get_search_matches] ends without a
    [return], [len(results)] raises [TypeError] in [_perform_query], and
    the call of [_perform_query] in [identify] is outside the [try]: the
    exception leaves [identify]. *)
Theorem identify_search_without_list_raises :
  _get_search_matches (host no_hits) (root blank) = None
  /\ identify (host no_hits) (prefs_en 1 "" "") (Some "foo") None ∅ init
     = ({| requests := [search_foo]; cover_urls := ∅; result_queue := [] |},
        Raise TypeError).
Proof. vm_compute. repeat split. Qed.

End Failures.

(** ** The search that lists the same results twice *)

Section Pagination.

Context (H : Host) (prefs : Prefs).

Import DLsiteMetadata.

(** When every candidate extracts whenever it is looked up, the loop of
    [identify] puts one record for each candidate, in their order, the
    first with the index [first] and each next one with the next index. *)
Lemma identify_loop_all_extract len_urls urls first (s : State (Date H)) :
  Forall (fun url =>
            forall s0, exists md,
              snd (_lookup_metadata H prefs url s0) = Return (Some md))
         urls ->
  exists mds,
    Forall2 (fun url md =>
               exists s0,
                 snd (_lookup_metadata H prefs url s0) = Return (Some md))
            urls mds
    /\ result_queue (fst (identify_loop H prefs len_urls urls first s))
       = result_queue s ++ ranked_from len_urls first mds.
Proof.
  intros Hall. revert first s.
  induction Hall as [|url urls Hu _ IH]; intros first s.
  - exists []. split; [constructor|]. simpl. rewrite app_nil_r. reflexivity.
  - destruct (Hu s) as [md E].
    destruct (lookup_metadata_inv H prefs url s) as [Hq _].
    cbn [identify_loop].
    destruct (_lookup_metadata H prefs url s) as [s1 o] eqn:El.
    simpl in E, Hq. subst o.
    unfold bind, put. simpl.
    match goal with
    | |- context [identify_loop H prefs len_urls urls (first + 1) ?s2] =>
        destruct (IH (first + 1) s2) as (mds & HF & Hqueue)
    end.
    exists (md :: mds). split.
    + constructor; [|exact HF]. exists s. rewrite El. reflexivity.
    + rewrite Hqueue. simpl. rewrite Hq, <- app_assoc. reflexivity.
Qed.

(** C5, amended to what the code does.  For a search (no identifier, a non-empty
    query) with a positive [num_matches]: at most [num_matches] requests
    are made for the candidates, all of the search URL, and at most
    [num_matches] candidates are returned.  With [num_matches = 3], a
    first page of results with the two links [a] and [b] and a second
    request answered by the same two links, the candidates are the three
    URLs [a], [b], [a]: the links found again are appended and the list
    is cut at [num_matches].  When each of the two links extracts whenever
    it is looked up, [identify] then puts exactly three records on the
    queue: the records extracted for [a], [b] and [a] again, with the
    ranks 0, 1 and 2. *)
Theorem search_candidates_capped title authors
    (identifiers : gmap string string) (s : State (Date H)) :
  1 <= num_matches prefs ->
  identifiers !! "dlsite" = None ->
  str_bool (_generate_query H prefs title authors) = true ->
  let url := _get_search_url (_generate_query H prefs title authors) in
  let run := identify_urls H prefs title authors identifiers s in
  (exists k, k <= num_matches prefs
             /\ requests (fst run) = requests s ++ repeat url k)
  /\ (forall urls, snd run = Return urls -> length urls <= num_matches prefs)
  /\ (num_matches prefs = 3 ->
      forall tree1 final1 tree2 final2 a b,
        open_novisit H (requests s) url = Some (tree1, final1) ->
        PyStr.contains "/keyword" final1 = true ->
        _get_search_matches H tree1 = Some [a; b] ->
        open_novisit H (requests s ++ [url]) url = Some (tree2, final2) ->
        PyStr.contains "/keyword" final2 = true ->
        element_bool H tree2 = true ->
        _get_search_matches H tree2 = Some [a; b] ->
        snd run = Return [a; b; a]
        /\ requests (fst run) = requests s ++ [url; url]
        /\ ((forall s0, exists md,
               snd (_lookup_metadata H prefs a s0) = Return (Some md)) ->
            (forall s0, exists md,
               snd (_lookup_metadata H prefs b s0) = Return (Some md)) ->
            exists m0 m1 m2,
              (exists s0, snd (_lookup_metadata H prefs a s0)
                          = Return (Some m0))
              /\ (exists s0, snd (_lookup_metadata H prefs b s0)
                             = Return (Some m1))
              /\ (exists s0, snd (_lookup_metadata H prefs a s0)
                             = Return (Some m2))
              /\ result_queue
                   (fst (identify H prefs title authors identifiers s))
                 = result_queue s
                   ++ [ranked 3 0 m0; ranked 3 1 m1; ranked 3 2 m2]
              /\ map md_source_relevance
                     [ranked 3 0 m0; ranked 3 1 m1; ranked 3 2 m2]
                 = [Some 0; Some 1; Some 2])).
Proof.
  intros Hn Hid Hquery url run. subst run.
  rewrite identify_unfold.
  rewrite identify_urls_search by auto. rewrite Hquery. fold url.
  destruct (perform_query_requests H prefs
              (_generate_query H prefs title authors) s)
    as (k & Hk & (Hreq & _ & Hqueue) & Hlen).
  split; [|split].
  - exists k. split; [lia | exact Hreq].
  - intros urls E. apply Hlen; assumption.
  - intros H3 tree1 final1 tree2 final2 a b O1 K1 M1 O2 K2 B2 M2.
    assert (Hrun :
              snd (_perform_query H prefs
                     (_generate_query H prefs title authors) s)
              = Return [a; b; a]
              /\ requests
                   (fst (_perform_query H prefs
                           (_generate_query H prefs title authors) s))
                 = requests s ++ [url; url]).
    { unfold _perform_query, bind, _get_webpage. fold url.
      rewrite O1, K1. simpl. rewrite M1, H3. simpl. rewrite !H3. simpl.
      unfold bind, _get_webpage. fold url. simpl.
      rewrite O2, K2, B2. simpl. rewrite M2. simpl. rewrite ?H3. simpl.
      split; [reflexivity|]. rewrite <- app_assoc. reflexivity. }
    destruct Hrun as [Hurls Hrequests].
    split; [exact Hurls|]. split; [exact Hrequests|].
    intros Ha Hb.
    destruct (_perform_query H prefs
                (_generate_query H prefs title authors) s) as [s1 o].
    simpl in Hurls, Hqueue. subst o.
    destruct (identify_loop_all_extract 3 [a; b; a] 0 s1)
      as (mds & HF & Hput).
    { constructor; [exact Ha|].
      constructor; [exact Hb|].
      constructor; [exact Ha | constructor]. }
    inversion HF as [|a0 m0 l0 mds0 L0 HF0]; subst.
    inversion HF0 as [|a1 m1 l1 mds1 L1 HF1]; subst.
    inversion HF1 as [|a2 m2 l2 mds2 L2 HF2]; subst.
    inversion HF2; subst.
    exists m0, m1, m2.
    split; [exact L0|]. split; [exact L1|]. split; [exact L2|].
    split.
    + change (length [a; b; a]) with 3. rewrite Hput, Hqueue. reflexivity.
    + destruct (ranked_fields H 3 0 m0) as (_ & _ & _ & R0 & _).
      destruct (ranked_fields H 3 1 m1) as (_ & _ & _ & R1 & _).
      destruct (ranked_fields H 3 2 m2) as (_ & _ & _ & R2 & _).
      cbn [map]. rewrite R0, R1, R2. reflexivity.
Qed.

End Pagination.

Section PaginationWitnesses.

Import DLsiteMetadata Canned Pages.

Lemma search_candidates_capped_witness :
  let prefs := prefs_en 3 "" "" in
  let run := identify_urls (host shop) prefs (Some "foo") None ∅ init in
  (exists k, k <= 3 /\ requests (fst run) = [] ++ repeat search_foo k)
  /\ (forall urls, snd run = Return urls -> length urls <= 3)
  /\ snd run = Return [Some url_a; Some url_b; Some url_a]
  /\ requests (fst run) = [] ++ [search_foo; search_foo]
  /\ exists m0 m1 m2 : Metadata string,
      (exists s0, snd (_lookup_metadata (host shop) prefs (Some url_a) s0)
                  = Return (Some m0))
      /\ (exists s0, snd (_lookup_metadata (host shop) prefs (Some url_b) s0)
                     = Return (Some m1))
      /\ (exists s0, snd (_lookup_metadata (host shop) prefs (Some url_a) s0)
                     = Return (Some m2))
      /\ result_queue
           (fst (identify (host shop) prefs (Some "foo") None ∅ init))
         = [] ++ [ranked 3 0 m0; ranked 3 1 m1; ranked 3 2 m2]
      /\ map md_source_relevance
             [ranked 3 0 m0; ranked 3 1 m1; ranked 3 2 m2]
         = [Some 0; Some 1; Some 2].
Proof.
  destruct (search_candidates_capped (host shop) (prefs_en 3 "" "")
              (Some "foo") None ∅ init)
    as (Hreq & Hlen & Hex);
    [simpl; lia | reflexivity | reflexivity |].
  split; [exact Hreq|]. split; [exact Hlen|].
  destruct (Hex eq_refl (root (results [url_a; url_b])) search_foo
              (root (results [url_a; url_b])) search_foo
              (Some url_a) (Some url_b))
    as (Hurls & Hrequests & Hrecords);
    [reflexivity | reflexivity | reflexivity | reflexivity | reflexivity
    | reflexivity | reflexivity |].
  split; [exact Hurls|]. split; [exact Hrequests|].
  apply Hrecords.
  - intros s0. exists (record_of page_a (prefs_en 3 "" "") url_a).
    vm_compute. reflexivity.
  - intros s0. exists (record_of page_b (prefs_en 3 "" "") url_b).
    vm_compute. reflexivity.
Defined.

(** Counterexample to C5 as stated: two links found on the first page and
    the same two found again give three candidates, and three records
    with the ranks 0, 1 and 2. *)
Lemma search_same_results_twice_three_candidates :
  let prefs := prefs_en 3 "" "" in
  _get_search_matches (host shop) (root (results [url_a; url_b]))
  = Some [Some url_a; Some url_b]
  /\ identify_urls (host shop) prefs (Some "foo") None ∅ init
     = ({| requests := [search_foo; search_foo]; cover_urls := ∅;
           result_queue := [] |},
        Return [Some url_a; Some url_b; Some url_a])
  /\ map (fun r => (md_title r, md_source_relevance r))
         (result_queue
            (fst (identify (host shop) prefs (Some "foo") None ∅ init)))
     = [("First Book", Some 0); ("Second Book", Some 1);
        ("First Book", Some 2)].
Proof. vm_compute. repeat split. Qed.

End PaginationWitnesses.

(** ** A candidate that cannot be extracted *)

Section CandidateFailures.

Context (H : Host) (prefs : Prefs).

Import DLsiteMetadata.

(** C4, amended to what the code does.  At a candidate [url] of the loop of
    [identify]:
    - if [_lookup_metadata] raises, [identify] returns at once, in the
      state the exception left, with the queue as it was: the candidates
      after it are not looked at;
    - if [_lookup_metadata] returns [None], the loop goes on with the next
      candidate and the next index, with the queue as it was;
    - a request for the candidate's page that fails is not an exception
      of [_lookup_metadata]: it returns [None];
    - an exception raised while the fetched page is parsed is an
      exception of [_lookup_metadata];
    - a hit of one of the blacklists makes it return [None]. *)
Theorem identify_candidate_failures len_urls url urls index
    (s : State (Date H)) :
  (forall e s1,
      _lookup_metadata H prefs url s = (s1, Raise e) ->
      identify_loop H prefs len_urls (url :: urls) index s = (s1, Return tt)
      /\ result_queue s1 = result_queue s)
  /\ (forall s1,
         _lookup_metadata H prefs url s = (s1, Return None) ->
         identify_loop H prefs len_urls (url :: urls) index s
         = identify_loop H prefs len_urls urls (index + 1) s1
         /\ result_queue s1 = result_queue s)
  /\ (forall u,
         url = Some u ->
         open_novisit H (requests s) u = None ->
         _lookup_metadata H prefs url s = (record_request H u s, Return None))
  /\ (forall u tree final_url e,
         url = Some u ->
         open_novisit H (requests s) u = Some (tree, final_url) ->
         PyStr.contains "/keyword" final_url = false ->
         parse_page H prefs u tree = Raise e ->
         _lookup_metadata H prefs url s = (record_request H u s, Raise e))
  /\ (forall u tree final_url title md s1,
         url = Some u ->
         open_novisit H (requests s) u = Some (tree, final_url) ->
         PyStr.contains "/keyword" final_url = false ->
         parse_page H prefs u tree = Return (title, md) ->
         cache_cover H u tree (record_request H u s) = (s1, Return tt) ->
         set_bool (_check_title_blacklist prefs title) = true
         \/ set_bool (_check_tag_blacklist prefs (md_tags md)) = true ->
         _lookup_metadata H prefs url s = (s1, Return None)).
Proof.
  pose proof (lookup_metadata_inv H prefs url s) as [Hq _].
  split; [|split; [|split; [|split]]].
  - intros e s1 E. rewrite E in Hq. simpl. rewrite E. auto.
  - intros s1 E. rewrite E in Hq. simpl. rewrite E. auto.
  - intros u -> Hopen. unfold _lookup_metadata, bind, _get_webpage.
    rewrite Hopen. reflexivity.
  - intros u tree final_url e -> Hopen Hkey Hparse.
    unfold _lookup_metadata, bind, _get_webpage, lift.
    rewrite Hopen, Hkey, Hparse. reflexivity.
  - intros u tree final_url title md s1 -> Hopen Hkey Hparse Hcover Hhit.
    unfold _lookup_metadata, bind, _get_webpage, lift.
    rewrite Hopen, Hkey, Hparse, Hcover.
    destruct (set_bool (_check_title_blacklist prefs title)); [reflexivity|].
    destruct Hhit as [Hhit|Hhit]; [discriminate|]. rewrite Hhit. reflexivity.
Qed.

End CandidateFailures.

Section CandidateFailuresWitnesses.

Import DLsiteMetadata Canned Pages.

(** The first of two candidates is served as a page without a title:
    [identify] stops there and never requests the second. *)
Lemma identify_candidate_failures_witness :
  let h := host (shop_serving (Some blank) (Some page_b)) in
  let prefs := prefs_en 2 "" "" in
  let s : State string :=
    {| requests := [search_foo]; cover_urls := ∅; result_queue := [] |} in
  identify_loop h prefs 2 [Some url_a; Some url_b] 0 s
  = ({| requests := [search_foo; url_a]; cover_urls := ∅;
        result_queue := [] |}, Return tt)
  /\ result_queue (record_request h url_a s) = result_queue s.
Proof.
  intros h prefs s.
  destruct (identify_candidate_failures h prefs 2 (Some url_a) [Some url_b] 0 s)
    as (Habort & _ & _ & Hparse & _).
  apply (Habort IndexError (record_request h url_a s)).
  apply (Hparse url_a (root blank) url_a IndexError); reflexivity.
Defined.

(** Counterexample to C4 as stated: the request for the first candidate's
    page fails, and [identify] goes on to the second candidate and puts
    its record on the queue. *)
Lemma identify_transport_failure_goes_on :
  let h := host (shop_serving None (Some page_b)) in
  let prefs := prefs_en 2 "" "" in
  snd (identify_urls h prefs (Some "foo") None ∅ init)
  = Return [Some url_a; Some url_b]
  /\ open_novisit h [search_foo] url_a = None
  /\ requests (fst (identify h prefs (Some "foo") None ∅ init))
     = [search_foo; url_a; url_b]
  /\ map (fun r => (md_title r, md_source_relevance r))
         (result_queue (fst (identify h prefs (Some "foo") None ∅ init)))
     = [("Second Book", Some 1)].
Proof. vm_compute. repeat split. Qed.

End CandidateFailuresWitnesses.

(** ** The authors of the two tables *)

Section Authors.

Context (H : Host) (prefs : Prefs).

Import DLsiteMetadata.

Lemma outline_row_authors x md tags md' tags' t d :
  translation prefs = Return t ->
  descriptor_of H x = Return d ->
  outline_row H prefs x (md, tags) = Return (md', tags') ->
  md_authors md'
  = if String.eqb d (L10n.Author2 t)
    then fixauthors H (map (text H) (xpath H x "td/a"))
    else md_authors md.
Proof.
  unfold outline_row. intros Ht Hd E. rewrite Hd, Ht in E. simpl in E.
  step E md1 E1.
  assert (Ha : md_authors md1 = md_authors md).
  { destruct (String.eqb d (L10n.Release_date t)).
    - step E1 a Ea. branches E1; inversion E1; reflexivity.
    - inversion E1; reflexivity. }
  rewrite <- Ha.
  destruct (String.eqb d (L10n.Author2 t)); [inversion E; reflexivity|].
  branches E;
    repeat (let a := fresh "a" in let Ea := fresh "Ea" in step E a Ea);
    branches E; inversion E; subst; reflexivity.
Qed.

Lemma outline_rows_keep_authors t rows :
  translation prefs = Return t ->
  Forall (fun r => descriptor_of H r <> Return (L10n.Author2 t)) rows ->
  forall md tags md' tags',
    for_each (outline_row H prefs) rows (md, tags) = Return (md', tags') ->
    md_authors md' = md_authors md.
Proof.
  intros Ht Hrows. induction Hrows as [|x rows Hx _ IH];
    intros md tags md' tags' E; cbn [for_each] in E.
  - inversion E. reflexivity.
  - step E acc Ex. destruct acc as [md1 tags1].
    rewrite (IH _ _ _ _ E).
    destruct (descriptor_of H x) as [d|e] eqn:Hd.
    + rewrite (outline_row_authors _ _ _ _ _ _ _ Ht Hd Ex).
      destruct (String.eqb_spec d (L10n.Author2 t)); [|reflexivity].
      subst d. contradiction.
    + unfold outline_row in Ex. rewrite Hd in Ex. discriminate.
Qed.

(** C8.  For a product page with a row of the maker table labelled
    [Author1] and a row of the outline table labelled [Author2], the
    authors of the record [_lookup_metadata] returns are the normalised
    names of the anchors of the [Author2] row (the last one so labelled):
    the outline table is scanned after the maker table and its authors
    replace those of the maker table. *)
Theorem secondary_authors_win u (s : State (Date H)) tree final_url md t
    maker before row after :
  open_novisit H (requests s) u = Some (tree, final_url) ->
  snd (_lookup_metadata H prefs (Some u) s) = Return (Some md) ->
  translation prefs = Return t ->
  In maker (xpath H tree "//table[@id='work_maker']/tr") ->
  descriptor_of H maker = Return (L10n.Author1 t) ->
  xpath H tree "//table[@id='work_outline']/tr" = before ++ row :: after ->
  descriptor_of H row = Return (L10n.Author2 t) ->
  Forall (fun r => descriptor_of H r <> Return (L10n.Author2 t)) after ->
  md_authors md = fixauthors H (map (text H) (xpath H row "td/a")).
Proof.
  intros Hopen Hlook Ht _ _ Hrows Hrow Hafter.
  destruct (lookup_metadata_inv H prefs (Some u) s) as [_ Hex].
  apply Hex in Hlook
    as (u' & tree' & final' & title & [= <-] & Hopen' & _ & E & _ & _).
  rewrite Hopen in Hopen'. injection Hopen' as <- <-.
  unfold parse_page in E.
  step E e Ee. step E title0 Etitle. step E tt0 Elocale.
  step E acc1 Emaker. destruct acc1 as [md1 tags1].
  step E acc2 Eoutline. destruct acc2 as [md2 tags2].
  rewrite Hrows, for_each_app in Eoutline.
  step Eoutline acc3 Ebefore. destruct acc3 as [md3 tags3].
  cbn [for_each] in Eoutline. step Eoutline acc4 Erow. destruct acc4 as [md4 tags4].
  apply (outline_rows_keep_authors t after Ht Hafter) in Eoutline.
  rewrite (outline_row_authors _ _ _ _ _ _ _ Ht Hrow Erow) in Eoutline.
  rewrite String.eqb_refl in Eoutline. rewrite <- Eoutline.
  inversion E; subst.
  destruct tags2, (xpath H tree "//div[@class='work_parts_area']");
    reflexivity.
Qed.

End Authors.

Section AuthorsWitnesses.

Import DLsiteMetadata Canned Pages.


Lemma secondary_authors_win_witness :
  let h := host (only page_two_authors) in
  let u := "https://www.dlsite.com/work/BJ003.html" in
  snd (_lookup_metadata h (prefs_en 1 "" "") (Some u) init)
  = Return (Some record_two_authors)
  /\ md_authors record_two_authors
     = fixauthors h
         (map (text h)
              (xpath h (page_two_authors,
                        row "Author" [anchor "Sato"; anchor "Abe"]) "td/a")).
Proof.
  intros h u. split; [vm_compute; reflexivity|].
  apply (secondary_authors_win h (prefs_en 1 "" "") u init
           (root page_two_authors) u record_two_authors translation_en
           (page_two_authors, row "Author" [anchor "Tanaka"])
           []
           (page_two_authors, row "Author" [anchor "Sato"; anchor "Abe"])
           [(page_two_authors, row "Series Name" [anchor "S"])]).
  - reflexivity.
  - vm_compute. reflexivity.
  - reflexivity.
  - simpl. auto.
  - reflexivity.
  - reflexivity.
  - reflexivity.
  - repeat constructor. discriminate.
Defined.

End AuthorsWitnesses.

(** ** The title blacklist *)

Section TitleBlacklist.

Context (H : Host) (prefs : Prefs).

Import DLsiteMetadata.

Lemma title_check_hits title w :
  str_bool (title_blacklist prefs) = true ->
  w ∈ blacklist_of (title_blacklist prefs) ->
  w ∈ title_words title ->
  set_bool (_check_title_blacklist prefs title) = true.
Proof.
  intros Hcfg Hw Ht. unfold _check_title_blacklist. rewrite Hcfg. simpl.
  apply negb_true_iff, bool_decide_eq_false. intros Hempty.
  apply (not_elem_of_empty (C := gset string) w). rewrite <- Hempty.
  apply elem_of_intersection. split; [exact Hw|].
  apply elem_of_list_to_set. exact Ht.
Qed.

Lemma lookup_metadata_title_hit u (s s1 : State (Date H)) tree final_url
    title md :
  open_novisit H (requests s) u = Some (tree, final_url) ->
  PyStr.contains "/keyword" final_url = false ->
  parse_page H prefs u tree = Return (title, md) ->
  cache_cover H u tree (record_request H u s) = (s1, Return tt) ->
  set_bool (_check_title_blacklist prefs title) = true ->
  _lookup_metadata H prefs (Some u) s = (s1, Return None).
Proof.
  intros Hopen Hkey Hparse Hcover Hhit.
  unfold _lookup_metadata, bind, _get_webpage, lift.
  rewrite Hopen, Hkey, Hparse, Hcover, Hhit. reflexivity.
Qed.

(** C9, amended to what the code does.  When the page of a candidate is fetched
    and parsed with the title [title], the cover block returns, a
    blacklist is configured, and one of the words of the title (ASCII
    punctuation removed from the title, lowercased, cut at each space)
    is an entry of the option (cut at the commas, stripped, lowercased),
    [_lookup_metadata] returns [None]. *)
Theorem blacklisted_title_word_rejected u (s s1 : State (Date H)) tree
    final_url title md w :
  open_novisit H (requests s) u = Some (tree, final_url) ->
  PyStr.contains "/keyword" final_url = false ->
  parse_page H prefs u tree = Return (title, md) ->
  cache_cover H u tree (record_request H u s) = (s1, Return tt) ->
  str_bool (title_blacklist prefs) = true ->
  w ∈ blacklist_of (title_blacklist prefs) ->
  w ∈ title_words title ->
  _lookup_metadata H prefs (Some u) s = (s1, Return None).
Proof.
  intros Hopen Hkey Hparse Hcover Hcfg Hw Ht.
  eapply lookup_metadata_title_hit; eauto using title_check_hits.
Qed.

End TitleBlacklist.

Section TitleBlacklistWitnesses.

Import DLsiteMetadata Canned Pages.


(** The example of the specification: [title_blacklist = "omnibus"] and
    the title "The Great Omnibus, Vol. 1". *)
Lemma blacklisted_title_word_rejected_witness :
  let p := product "The Great Omnibus, Vol. 1" [] [] [] in
  title_words "The Great Omnibus, Vol. 1"
  = ["the"; "great"; "omnibus"; "vol"; "1"]
  /\ _lookup_metadata (host (only p)) (prefs_en 1 "omnibus" "") (Some url_c) init
     = ({| requests := [url_c]; cover_urls := ∅; result_queue := [] |},
        Return None).
Proof.
  intros p. split; [reflexivity|].
  apply (blacklisted_title_word_rejected (host (only p))
           (prefs_en 1 "omnibus" "") url_c init _ (root p) url_c
           "The Great Omnibus, Vol. 1"
           (set_identifiers (Metadata_new "The Great Omnibus, Vol. 1")
              {[ "dlsite" := "BJ004" ]})
           "omnibus").
  - reflexivity.
  - reflexivity.
  - vm_compute. reflexivity.
  - reflexivity.
  - reflexivity.
  - vm_compute. reflexivity.
  - apply list_elem_of_In. vm_compute. do 2 right. left. reflexivity.
Defined.

(** Counterexample to C9 as stated.  The configured word [sci-fi] is a
    word of the title "sci-fi tales" as it stands, and the word [omnibus]
    is in the title "The Great Omnibus,Vol. 1" with a comma attached:
    both titles pass, the records are returned.  Punctuation is removed
    from the title only, and removing it joins what it separated. *)
Lemma blacklisted_word_with_punctuation_passes :
  (In "sci-fi" (PyStr.split " " "sci-fi tales")
   /\ "sci-fi" ∈ blacklist_of "sci-fi"
   /\ title_words "sci-fi tales" = ["scifi"; "tales"]
   /\ _lookup_metadata (host (only (product "sci-fi tales" [] [] [])))
        (prefs_en 1 "sci-fi" "") (Some url_c) init
      = ({| requests := [url_c]; cover_urls := ∅; result_queue := [] |},
         Return (Some (set_identifiers (Metadata_new "sci-fi tales")
                         {[ "dlsite" := "BJ004" ]}))))
  /\ ("omnibus" ∈ blacklist_of "omnibus"
      /\ title_words "The Great Omnibus,Vol. 1"
         = ["the"; "great"; "omnibusvol"; "1"]
      /\ _lookup_metadata
           (host (only (product "The Great Omnibus,Vol. 1" [] [] [])))
           (prefs_en 1 "omnibus" "") (Some url_c) init
         = ({| requests := [url_c]; cover_urls := ∅; result_queue := [] |},
            Return (Some (set_identifiers
                            (Metadata_new "The Great Omnibus,Vol. 1")
                            {[ "dlsite" := "BJ004" ]})))).
Proof.
  repeat split; try (vm_compute; reflexivity).
  simpl. auto.
Qed.

End TitleBlacklistWitnesses.

(** ** Publisher, circle and label *)


Section MakerRows.

Context (H : Host) (prefs : Prefs).

Import DLsiteMetadata.

Lemma assoc_In {A} key (d : list (string * A)) v :
  L10n.assoc key d = Some v -> In v (map snd d).
Proof.
  induction d as [|[k a] d IH]; simpl; [discriminate|].
  destruct (String.eqb k key); intros Hv; [left; congruence | auto].
Qed.

(** In no locale is the [Author1] label also one of the three others. *)
Lemma author1_is_no_maker_label t d :
  translation prefs = Return t ->
  d = L10n.Publisher t \/ d = L10n.Circle t \/ d = L10n.Label t ->
  d <> L10n.Author1 t.
Proof.
  unfold translation.
  destruct (L10n.assoc (country prefs) L10n.TRANSLATIONS) as [t'|] eqn:E;
    [|discriminate].
  intros Ht. assert (t' = t) as -> by congruence. clear Ht.
  apply assoc_In in E. simpl in E.
  repeat (destruct E as [<-|E];
          [intros [Hd | [Hd | Hd]]; rewrite Hd; discriminate|]).
  contradiction.
Qed.

(** C10.  For a row of the maker table of a page whose label is the
    [Publisher], [Circle] or [Label] string of the locale, what the row
    gives (lines 491 to 499) is read from the first anchor
    in a span of the whole document, the first element of
    [tree.xpath("//span/a")], whatever the cells of the row hold: the
    publisher is its text, the tag is [group.] or [label.] followed by
    its text.  The anchor depends on the document only, so every such
    row of a page gets the same value. *)
Theorem maker_row_document_anchor tree x t d md tags md' tags' :
  absolute_paths_global H ->
  In x (xpath H tree "//table[@id='work_maker']/tr") ->
  translation prefs = Return t ->
  descriptor_of H x = Return d ->
  d = L10n.Publisher t \/ d = L10n.Circle t \/ d = L10n.Label t ->
  maker_row H prefs x (md, tags) = Return (md', tags') ->
  exists a,
    head (xpath H tree "//span/a") = Some a
    /\ ((d = L10n.Publisher t
         /\ md' = set_publisher md (text H a) /\ tags' = tags)
        \/ (d <> L10n.Publisher t /\ d = L10n.Circle t
            /\ exists v, text H a = Some v
                         /\ md' = md /\ tags' = tags ++ ["group." +:+ v])
        \/ (d <> L10n.Publisher t /\ d <> L10n.Circle t /\ d = L10n.Label t
            /\ exists v, text H a = Some v
                         /\ md' = md /\ tags' = tags ++ ["label." +:+ v])).
Proof.
  intros Habs Hx Ht Hd Hlabel E.
  pose proof (author1_is_no_maker_label t d Ht Hlabel) as Hnot.
  unfold maker_row in E. rewrite Hd, Ht in E. simpl in E.
  rewrite (Habs tree _ x "//span/a" Hx eq_refl) in E.
  destruct (String.eqb_spec d (L10n.Author1 t)) as [|_]; [contradiction|].
  destruct (String.eqb_spec d (L10n.Publisher t)) as [Hp|Hp].
  - step E a Ea. inversion E; subst md' tags'.
    destruct (xpath H tree "//span/a") as [|a0 l]; [discriminate|].
    inversion Ea; subst a0. exists a. split; [reflexivity|]. left. auto.
  - destruct (String.eqb_spec d (L10n.Circle t)) as [Hc|Hc].
    + step E a Ea. step E tag Etag. inversion E; subst md' tags'.
      destruct (xpath H tree "//span/a") as [|a0 l]; [discriminate|].
      inversion Ea; subst a0. exists a. split; [reflexivity|].
      right. left. destruct (text H a) as [v|]; [|discriminate].
      inversion Etag. eauto 10.
    + destruct (String.eqb_spec d (L10n.Label t)) as [Hl|Hl].
      * step E a Ea. step E tag Etag. inversion E; subst md' tags'.
        destruct (xpath H tree "//span/a") as [|a0 l]; [discriminate|].
        inversion Ea; subst a0. exists a. split; [reflexivity|].
        right. right. destruct (text H a) as [v|]; [|discriminate].
        inversion Etag. eauto 10.
      * exfalso. destruct Hlabel as [?|[?|?]]; contradiction.
Qed.

End MakerRows.

Section MakerRowsWitnesses.

Import DLsiteMetadata Canned Pages.

Lemma canned_absolute_paths_global w : absolute_paths_global (host w).
Proof.
  intros [p [txt attrs rel]] q [p' [txt' attrs' rel']] path Hin Habs.
  change (In (p', Node txt' attrs' rel') (select (p, Node txt attrs rel) q))
    in Hin.
  change (select (p', Node txt' attrs' rel') path
          = select (p, Node txt attrs rel) path).
  assert (Hp : p' = p).
  { unfold select in Hin. destruct (PyStr.starts_with "/" q);
      apply in_map_iff in Hin as (n & [= <- _] & _); reflexivity. }
  subst p'. unfold select. rewrite Habs. reflexivity.
Qed.


Lemma maker_row_document_anchor_witness :
  let h := host (only page_maker) in
  let md : Metadata string := Metadata_new "Fourth Book" in
  exists a,
    head (xpath h (root page_maker) "//span/a") = Some a
    /\ (("Circle" = "Publisher"
         /\ md = set_publisher md (text h a) /\ ["group.Site Menu"] = [])
        \/ ("Circle" <> "Publisher" /\ "Circle" = "Circle"
            /\ exists v, text h a = Some v
                         /\ md = md
                         /\ ["group.Site Menu"] = [] ++ ["group." +:+ v])
        \/ ("Circle" <> "Publisher" /\ "Circle" <> "Circle"
            /\ "Circle" = "Label"
            /\ exists v, text h a = Some v
                         /\ md = md
                         /\ ["group.Site Menu"] = [] ++ ["label." +:+ v])).
Proof.
  intros h md.
  apply (maker_row_document_anchor h (prefs_en 1 "" "") (root page_maker)
           (page_maker, row "Circle" [anchor "Own Circle"])
           translation_en "Circle" md [] md ["group.Site Menu"]).
  - apply canned_absolute_paths_global.
  - simpl. auto.
  - reflexivity.
  - reflexivity.
  - right. left. reflexivity.
  - reflexivity.
Defined.

Example page_maker_record :
  match snd (_lookup_metadata (host (only page_maker)) (prefs_en 1 "" "")
               (Some url_c) init) with
  | Return (Some r) =>
      md_publisher r = Some "Site Menu"
      /\ md_tags r = ["group.Site Menu"; "label.Site Menu"]
  | _ => False
  end.
Proof. vm_compute. split; reflexivity. Qed.

End MakerRowsWitnesses.

(** ** The examples of the specification *)

Section SpecificationExamples.

Import DLsiteMetadata Canned Pages.

Example authors_of_maker_table_ja :
  match snd (_lookup_metadata (host (only page_ja)) prefs_ja (Some url_c) init)
  with
  | Return (Some r) => md_authors r = ["Tanaka"; "Sato"]
  | _ => False
  end.
Proof. vm_compute. reflexivity. Qed.

Example event_tag_en :
  match snd (_lookup_metadata (host (only page_event)) (prefs_en 1 "" "")
               (Some url_c) init)
  with
  | Return (Some r) => md_tags r = ["event.C103"]
  | _ => False
  end.
Proof. vm_compute. reflexivity. Qed.

(** A search that the shop turns into a product page: one candidate, the
    search URL itself, with rank 0 and no [isbn]. *)
Example redirected_search :
  let run :=
    identify (host (redirecting page_a url_a)) (prefs_en 3 "" "") (Some "foo")
      None ∅ init in
  requests (fst run) = [search_foo; search_foo]
  /\ map (fun r => (md_title r, md_source_relevance r, md_isbn r))
         (result_queue (fst run))
     = [("First Book", Some 0, None)].
Proof. vm_compute. split; reflexivity. Qed.

(** Leading zeroes are removed from the tokens of the title when the
    option is set. *)
Example query_without_leading_zeroes :
  _generate_query (host offline)
    {| country := "ja_JP"; num_matches := 1; title_blacklist := "";
       tag_blacklist := ""; remove_leading_zeroes := true |}
    (Some "Book 007 0") (Some ["Tanaka"; "Sato"])
  = "Book 7  Tanaka Sato".
Proof. reflexivity. Qed.

End SpecificationExamples.

(** * Further properties of the class *)

(** ** The identifier read from a URL *)

Section IdentifierFacts.

Import PyStr.

Lemma split_pieces_without sep s :
  Forall (fun p => has_char sep p = false) (split sep s).
Proof.
  induction s as [|a s IH]; simpl.
  - repeat constructor.
  - destruct (Ascii.eqb a sep) eqn:E.
    + constructor; [reflexivity | exact IH].
    + destruct (split sep s) as [|p ps]; [repeat constructor; simpl; now rewrite E|].
      inversion IH; subst. constructor; [|assumption].
      simpl. rewrite E. assumption.
Qed.

(** The first piece is the beginning of the string. *)
Lemma hd_split_prefix sep s :
  exists rest, s = List.hd EmptyString (split sep s) +:+ rest.
Proof.
  induction s as [|a s [rest IH]]; simpl.
  - exists EmptyString. reflexivity.
  - destruct (Ascii.eqb a sep).
    + exists (String a s). reflexivity.
    + destruct (split sep s) as [|p ps]; simpl in *.
      * exists s. reflexivity.
      * exists rest. rewrite IH at 1. reflexivity.
Qed.

Lemma has_char_hd_split c sep s :
  has_char c s = false ->
  has_char c (List.hd EmptyString (split sep s)) = false.
Proof.
  intros Hc. destruct (hd_split_prefix sep s) as [rest E].
  rewrite E, has_char_app in Hc. apply orb_false_iff in Hc. tauto.
Qed.

Lemma Forall_last {A} (P : A -> Prop) l d :
  l <> [] -> Forall P l -> P (List.last l d).
Proof.
  intros Hne Hall. induction Hall as [|x l Hx Hall IH]; [contradiction|].
  destruct l as [|y l]; [exact Hx|]. apply IH. discriminate.
Qed.

(** X1.  The identifier that [_lookup_metadata] gives a record never holds a
    ['/'], a ['.'] or a ['?'], whatever the URL. *)
Theorem url_product_id_clean (url : string) :
  has_char "/" (DLsiteMetadata.url_product_id url) = false
  /\ has_char "." (DLsiteMetadata.url_product_id url) = false
  /\ has_char "?" (DLsiteMetadata.url_product_id url) = false.
Proof.
  unfold DLsiteMetadata.url_product_id. rewrite last_rsplit1.
  set (seg := List.last (split "/" url) EmptyString).
  assert (Hseg : has_char "/" seg = false).
  { apply (Forall_last (fun p => has_char "/" p = false));
      [apply split_not_nil | apply split_pieces_without]. }
  set (stem := List.hd EmptyString (split "." seg)).
  assert (Hstem_slash : has_char "/" stem = false)
    by (apply has_char_hd_split; exact Hseg).
  assert (Hstem_dot : has_char "." stem = false).
  { pose proof (split_pieces_without "." seg) as Hall. unfold stem.
    destruct (split "." seg) as [|p ps] eqn:E;
      [exfalso; exact (split_not_nil _ _ E)|].
    inversion Hall; assumption. }
  split; [|split].
  - apply has_char_hd_split. exact Hstem_slash.
  - apply has_char_hd_split. exact Hstem_dot.
  - pose proof (split_pieces_without "?" stem) as Hall.
    destruct (split "?" stem) as [|p ps] eqn:E;
      [exfalso; exact (split_not_nil _ _ E)|].
    inversion Hall; assumption.
Qed.

(** A URL that ends with a ['/'] gives the empty identifier. *)
Lemma url_product_id_trailing_slash (url : string) :
  DLsiteMetadata.url_product_id (url +:+ "/") = EmptyString.
Proof.
  unfold DLsiteMetadata.url_product_id.
  rewrite last_rsplit1, last_split_app. reflexivity.
Qed.

End IdentifierFacts.

(** ** The search URL *)

Section SearchUrlFacts.

Import PyStr.

Lemma append_inv_head (p a b : string) : p +:+ a = p +:+ b -> a = b.
Proof.
  induction p as [|c p IH]; simpl; [auto|]. intros [= E]. auto.
Qed.

Lemma nat_of_hex_digit n :
  n < 16 ->
  nat_of_ascii (hex_digit n) = if n <? 10 then 48 + n else 55 + n.
Proof.
  intros Hn. unfold hex_digit.
  destruct (n <? 10); apply nat_ascii_embedding; lia.
Qed.

Lemma hex_digit_inj i j :
  i < 16 -> j < 16 -> hex_digit i = hex_digit j -> i = j.
Proof.
  intros Hi Hj E. apply (f_equal nat_of_ascii) in E.
  rewrite !nat_of_hex_digit in E by assumption.
  destruct (Nat.ltb_spec i 10), (Nat.ltb_spec j 10); lia.
Qed.

Lemma nat_of_ascii_lt a : nat_of_ascii a < 256.
Proof. apply nat_ascii_bounded. Qed.

Lemma percent_reserved : is_unreserved "%" = false.
Proof. reflexivity. Qed.

Lemma hex_pair_inj a b :
  hex_digit (nat_of_ascii a / 16) = hex_digit (nat_of_ascii b / 16) ->
  hex_digit (nat_of_ascii a mod 16) = hex_digit (nat_of_ascii b mod 16) ->
  a = b.
Proof.
  intros Hhi Hlo.
  pose proof (nat_of_ascii_lt a) as La.
  pose proof (nat_of_ascii_lt b) as Lb.
  apply hex_digit_inj in Hhi;
    [|apply Nat.Div0.div_lt_upper_bound; lia
     |apply Nat.Div0.div_lt_upper_bound; lia].
  apply hex_digit_inj in Hlo;
    [|apply Nat.mod_upper_bound; lia | apply Nat.mod_upper_bound; lia].
  assert (Hn : nat_of_ascii a = nat_of_ascii b).
  { rewrite (Nat.div_mod_eq (nat_of_ascii a) 16).
    rewrite (Nat.div_mod_eq (nat_of_ascii b) 16). congruence. }
  rewrite <- (ascii_nat_embedding a), <- (ascii_nat_embedding b).
  congruence.
Qed.

(** [quote] loses nothing: different strings are quoted differently. *)
Lemma quote_inj s1 s2 : quote s1 = quote s2 -> s1 = s2.
Proof.
  revert s2. induction s1 as [|a s1 IH]; intros [|b s2]; cbn [quote].
  - reflexivity.
  - destruct (is_unreserved b); discriminate.
  - destruct (is_unreserved a); discriminate.
  - destruct (is_unreserved a) eqn:Ea, (is_unreserved b) eqn:Eb.
    + intros [= -> E]. f_equal. auto.
    + intros [= -> _]. rewrite percent_reserved in Ea. discriminate.
    + intros [= <- _]. rewrite percent_reserved in Eb. discriminate.
    + intros [= Hhi Hlo E]. f_equal; [|auto].
      exact (hex_pair_inj a b Hhi Hlo).
Qed.

(** X2.  Different queries are searched with different URLs. *)
Theorem search_url_injective (query1 query2 : string) :
  DLsiteMetadata._get_search_url query1 = DLsiteMetadata._get_search_url query2 ->
  query1 = query2.
Proof.
  unfold DLsiteMetadata._get_search_url. intros E.
  apply append_inv_head, append_inv_head in E. apply quote_inj, E.
Qed.

Lemma search_url_injective_witness :
  DLsiteMetadata._get_search_url "a b" = DLsiteMetadata._get_search_url "a b"
  /\ "a b" = "a b".
Proof.
  split; [reflexivity|].
  apply (search_url_injective "a b" "a b"). reflexivity.
Defined.

End SearchUrlFacts.

Section SearchAnswer.

Context (H : Host) (prefs : Prefs).

Import DLsiteMetadata.

Lemma search_url_has_keyword query :
  PyStr.contains "/keyword" (_get_search_url query) = true.
Proof. reflexivity. Qed.

(** X3.  An answer to a search that is served from the search URL itself, not
    redirected, is taken for a page of search results. *)
Theorem unredirected_search_is_search query (s : State (Date H)) tree :
  open_novisit H (requests s) (_get_search_url query)
  = Some (tree, _get_search_url query) ->
  snd (_get_webpage H (Some (_get_search_url query)) s)
  = Return (Some tree, true).
Proof.
  intros Hopen. unfold _get_webpage. rewrite Hopen.
  cbn [snd]. rewrite search_url_has_keyword. reflexivity.
Qed.

End SearchAnswer.

Lemma unredirected_search_is_search_witness :
  snd (DLsiteMetadata._get_webpage (Canned.host Pages.shop)
         (Some (DLsiteMetadata._get_search_url "foo")) Pages.init)
  = Return (Some (Canned.root (Pages.results [Pages.url_a; Pages.url_b])), true).
Proof.
  apply (unredirected_search_is_search (Canned.host Pages.shop) "foo" Pages.init).
  reflexivity.
Defined.

(** ** The query *)

Section Query.

Context (H : Host) (prefs : Prefs).

Import DLsiteMetadata.

Lemma join_cons_cons sep a b l :
  PyStr.join sep (a :: b :: l) = a +:+ sep +:+ PyStr.join sep (b :: l).
Proof. reflexivity. Qed.

Lemma append_assoc (a b c : string) : (a +:+ b) +:+ c = a +:+ (b +:+ c).
Proof.
  induction a as [|x a IH]; [reflexivity|].
  change (String x ((a +:+ b) +:+ c) = String x (a +:+ (b +:+ c))).
  rewrite IH. reflexivity.
Qed.

Lemma join_absorb sep a b l :
  PyStr.join sep ((a +:+ sep +:+ b) :: l)
  = a +:+ sep +:+ PyStr.join sep (b :: l).
Proof.
  destruct l as [|c l]; [reflexivity|].
  rewrite !join_cons_cons, !append_assoc. reflexivity.
Qed.

Lemma fold_left_join sep l t0 :
  fold_left (fun title author => title +:+ sep +:+ author) l t0
  = PyStr.join sep (t0 :: l).
Proof.
  revert t0. induction l as [|a l IH]; intros t0; simpl fold_left.
  - reflexivity.
  - rewrite IH, join_absorb. reflexivity.
Qed.

(** X4.  The query is the query of the title alone followed by the authors in
    their order, each after one space; without authors, or with an empty
    list of them, it is the query of the title alone. *)
Theorem generate_query_authors title authors :
  _generate_query H prefs title (Some authors)
  = PyStr.join " " (_generate_query H prefs title None :: authors).
Proof. unfold _generate_query. apply fold_left_join. Qed.

Lemma lstrip_zero_spec x :
  exists zeroes,
    only_zeroes zeroes
    /\ x = zeroes +:+ PyStr.lstrip_zero x
    /\ PyStr.starts_with "0" (PyStr.lstrip_zero x) = false.
Proof.
  unfold PyStr.lstrip_zero.
  induction x as [|a x (z & Hz & Hx & Hs)]; cbn [PyStr.lstrip_by].
  - exists EmptyString. repeat split.
  - destruct (Ascii.eqb_spec "0"%char a) as [<-|Hne].
    + exists (String "0" z). split; [split; [reflexivity | exact Hz]|].
      split; [|exact Hs].
      change (String "0" x = String "0" (z +:+ PyStr.lstrip_by (Ascii.eqb "0") x)).
      rewrite <- Hx. reflexivity.
    + exists EmptyString. split; [exact I|]. split; [reflexivity|].
      cbn [PyStr.starts_with].
      destruct (Ascii.eqb_spec "0"%char a); [contradiction | reflexivity].
Qed.

(** X5.  The query of a title is made of its tokens, as many and in the same
    order, with one space between them.  With [remove_leading_zeroes]
    each token has lost the zeroes it began with, all of them, and
    nothing else; without it the tokens are unchanged. *)
Theorem generate_query_tokens title :
  exists words,
    _generate_query H prefs title None = PyStr.join " " words
    /\ Forall2 (fun word token =>
                  if remove_leading_zeroes prefs
                  then PyStr.starts_with "0" word = false
                       /\ exists zeroes,
                           only_zeroes zeroes /\ token = zeroes +:+ word
                  else word = token)
               words (get_title_tokens H title).
Proof.
  unfold _generate_query. eexists. split; [reflexivity|].
  induction (get_title_tokens H title) as [|x l IH]; simpl;
    constructor; [|exact IH].
  destruct (remove_leading_zeroes prefs); [|reflexivity].
  destruct (lstrip_zero_spec x) as (z & Hz & Hx & Hs). eauto.
Qed.

End Query.

(** ** The two tables of locales *)

Section Locales.

Import DLsiteMetadata.

Lemma assoc_Some_key {A} key (d : list (string * A)) v :
  L10n.assoc key d = Some v -> In key (map fst d).
Proof.
  induction d as [|[k a] d IH]; simpl; [discriminate|].
  destruct (String.eqb_spec k key); [auto | auto].
Qed.

Lemma assoc_key_Some {A} key (d : list (string * A)) :
  In key (map fst d) -> exists v, L10n.assoc key d = Some v.
Proof.
  induction d as [|[k a] d IH]; simpl; [contradiction|].
  destruct (String.eqb_spec k key); [eauto|].
  intros [?|Hin]; [contradiction | auto].
Qed.

(** X6.  The labels of a locale are found exactly when the [country] option
    is one of the 14 keys of [COUNTRIES]; for any other value, the
    display names of the locales among them, looking the labels up raises
    [KeyError]. *)
Theorem translation_iff_country (prefs : Prefs) :
  (In (country prefs) (map fst L10n.COUNTRIES) <->
   exists t, translation prefs = Return t)
  /\ (~ In (country prefs) (map fst L10n.COUNTRIES) <->
      translation prefs = Raise KeyError)
  /\ Forall (fun name => ~ In name (map fst L10n.COUNTRIES))
       (map snd L10n.COUNTRIES).
Proof.
  assert (Hkeys : map fst L10n.TRANSLATIONS = map fst L10n.COUNTRIES)
    by reflexivity.
  unfold translation. split; [|split].
  - split.
    + intros Hin. rewrite <- Hkeys in Hin.
      apply assoc_key_Some in Hin as [t ->]. eauto.
    + intros [t Ht].
      destruct (L10n.assoc (country prefs) L10n.TRANSLATIONS) eqn:E;
        [|discriminate].
      rewrite <- Hkeys. eapply assoc_Some_key, E.
  - split.
    + intros Hnot.
      destruct (L10n.assoc (country prefs) L10n.TRANSLATIONS) eqn:E;
        [|reflexivity].
      exfalso. apply Hnot. rewrite <- Hkeys. eapply assoc_Some_key, E.
    + intros Ht Hin. rewrite <- Hkeys in Hin.
      apply assoc_key_Some in Hin as [t E]. rewrite E in Ht. discriminate.
  - repeat constructor; simpl; intros Hin;
      repeat (destruct Hin as [Hin|Hin]; [discriminate|]); contradiction.
Qed.

End Locales.

(** ** The tags of a record *)

Section Tags.

Context (H : Host) (prefs : Prefs).

Import DLsiteMetadata.

Lemma row_effect_refl {D} (acc : Metadata D * list string) : row_effect acc acc.
Proof.
  split; [|split; [|split]]; try reflexivity.
  exists []. rewrite app_nil_r. split; [reflexivity | constructor].
Qed.

Lemma row_effect_trans {D} (a b c : Metadata D * list string) :
  row_effect a b -> row_effect b c -> row_effect a c.
Proof.
  intros (T1 & I1 & R1 & n1 & E1 & F1) (T2 & I2 & R2 & n2 & E2 & F2).
  split; [|split; [|split]]; try congruence.
  exists (n1 ++ n2). split; [rewrite E2, E1, app_assoc; reflexivity|].
  apply Forall_app. auto.
Qed.

Lemma row_effect_tag {D} (md md' : Metadata D) tags tag :
  md_tags md' = md_tags md -> md_isbn md' = md_isbn md ->
  md_source_relevance md' = md_source_relevance md ->
  namespaced tag ->
  row_effect (md, tags) (md', tags ++ [tag]).
Proof.
  intros T I R N. split; [|split; [|split]]; try assumption.
  exists [tag]. split; [reflexivity | constructor; [exact N | constructor]].
Qed.

Lemma row_effect_record {D} (md md' : Metadata D) tags :
  md_tags md' = md_tags md -> md_isbn md' = md_isbn md ->
  md_source_relevance md' = md_source_relevance md ->
  row_effect (md, tags) (md', tags).
Proof.
  intros T I R. split; [|split; [|split]]; try assumption.
  exists []. rewrite app_nil_r. split; [reflexivity | constructor].
Qed.

Lemma str_add_namespaced prefix t tag :
  str_add prefix t = Return tag -> PyStr.starts_with prefix tag = true.
Proof.
  destruct t as [v|]; [|discriminate]. intros [= <-].
  induction prefix as [|a p IH]; [reflexivity|].
  simpl. rewrite Ascii.eqb_refl. exact IH.
Qed.

Lemma maker_row_effect x acc acc' :
  maker_row H prefs x acc = Return acc' -> row_effect acc acc'.
Proof.
  destruct acc as [md tags]. unfold maker_row. intros E.
  step E descriptor Ed. step E t Et.
  branches E;
    repeat (let a := fresh "a" in let Ea := fresh "Ea" in step E a Ea);
    inversion E; subst;
    try (apply row_effect_record; reflexivity);
    apply row_effect_tag; try reflexivity.
  - left. eapply str_add_namespaced. eassumption.
  - right. left. eapply str_add_namespaced. eassumption.
Qed.

Lemma genre_tags_effect xs tags tags' :
  for_each (fun x tags =>
              let? tag := str_add "genre." (text H x) in
              Return (tags ++ [tag])) xs tags = Return tags' ->
  exists new, tags' = tags ++ new /\ Forall namespaced new.
Proof.
  revert tags. induction xs as [|x xs IH]; intros tags E; cbn [for_each] in E.
  - inversion E. exists []. rewrite app_nil_r. split; [reflexivity | constructor].
  - step E tags1 E1. step E1 tag Etag. inversion E1; subst tags1.
    destruct (IH _ E) as (new & -> & Hnew).
    exists (tag :: new). rewrite <- app_assoc. split; [reflexivity|].
    constructor; [|exact Hnew].
    right. right. right. eapply str_add_namespaced. eassumption.
Qed.

Lemma outline_row_effect x acc acc' :
  outline_row H prefs x acc = Return acc' -> row_effect acc acc'.
Proof.
  destruct acc as [md tags]. unfold outline_row. intros E.
  step E descriptor Ed. step E t Et. step E md1 E1.
  assert (Ha : row_effect (md, tags) (md1, tags)).
  { destruct (String.eqb descriptor (L10n.Release_date t)).
    - step E1 a Ea. branches E1; inversion E1;
        apply row_effect_record; reflexivity.
    - inversion E1. apply row_effect_refl. }
  apply (row_effect_trans _ _ _ Ha). clear Ha E1.
  destruct (String.eqb descriptor (L10n.Author2 t));
    [inversion E; apply row_effect_record; reflexivity|].
  destruct (String.eqb descriptor (L10n.Series_name t)).
  { step E a Ea. inversion E. apply row_effect_record; reflexivity. }
  destruct (String.eqb descriptor (L10n.Event t)).
  { step E a Ea. destruct (text H a); [|discriminate]. inversion E.
    apply row_effect_tag; try reflexivity. right. right. left. reflexivity. }
  destruct (String.eqb descriptor (L10n.Genre t)).
  { step E tags1 Eg. inversion E; subst.
    apply genre_tags_effect in Eg as (new & -> & Hnew).
    split; [|split; [|split]]; try reflexivity. eauto. }
  inversion E. apply row_effect_refl.
Qed.

Lemma rows_effect (row : Element H -> Metadata (Date H) * list string ->
                         outcome (Metadata (Date H) * list string)) :
  (forall x acc acc', row x acc = Return acc' -> row_effect acc acc') ->
  forall xs acc acc',
    for_each row xs acc = Return acc' -> row_effect acc acc'.
Proof.
  intros Hrow xs acc acc' E.
  apply (for_each_invariant (row_effect acc) row) with (xs := xs) (acc := acc);
    [|apply row_effect_refl | exact E].
  intros x a a' Ha Ex. eapply row_effect_trans; eauto.
Qed.

(** What [parse_page] returns, from what the rows did. *)
Lemma parse_page_tags url tree title md :
  parse_page H prefs url tree = Return (title, md) ->
  md_isbn md = None /\ md_source_relevance md = None
  /\ exists tags,
      Forall namespaced tags
      /\ md_tags md = map (PyStr.replace "," " ") tags.
Proof.
  unfold parse_page. intros E.
  step E e Ee. step E title0 Etitle. step E u Elocale.
  step E acc1 Emaker. destruct acc1 as [md1 tags1].
  step E acc2 Eoutline. destruct acc2 as [md2 tags2].
  apply (rows_effect _ maker_row_effect) in Emaker.
  apply (rows_effect _ outline_row_effect) in Eoutline.
  destruct (row_effect_trans _ _ _ Emaker Eoutline)
    as (T & I & R & new & Enew & Hnew).
  simpl in T, I, R, Enew. subst tags2. inversion E; subst.
  destruct new as [|tag new],
    (xpath H tree "//div[@class='work_parts_area']"); simpl;
    (split; [|split]); try assumption.
  - exists []. split; [constructor | exact T].
  - exists []. split; [constructor | exact T].
  - exists (tag :: new). split; [exact Hnew | reflexivity].
  - exists (tag :: new). split; [exact Hnew | reflexivity].
Qed.

Lemma replace_comma s :
  PyStr.replace "," " " s = PyStr.map_chars comma_to_space s.
Proof.
  unfold PyStr.replace.
  induction s as [|a s IH]; [reflexivity|].
  cbn [PyStr.replace_from PyStr.map_chars PyStr.starts_with String.length Nat.sub].
  unfold comma_to_space at 1. rewrite Ascii.eqb_sym.
  destruct (Ascii.eqb a ","); cbn [andb]; rewrite IH; reflexivity.
Qed.

Lemma comma_to_space_no_comma s :
  PyStr.has_char "," (PyStr.map_chars comma_to_space s) = false.
Proof.
  induction s as [|a s IH]; [reflexivity|].
  cbn [PyStr.map_chars PyStr.has_char]. rewrite IH, orb_false_r.
  unfold comma_to_space. destruct (Ascii.eqb a ",") eqn:E; [reflexivity | exact E].
Qed.

Lemma starts_with_app p s :
  PyStr.starts_with p s = true -> exists rest, s = p +:+ rest.
Proof.
  revert s. induction p as [|a p IH]; intros s E; [exists s; reflexivity|].
  destruct s as [|b s]; [discriminate|]. simpl in E.
  apply andb_true_iff in E as [Eab Ep]. apply Ascii.eqb_eq in Eab. subst b.
  destruct (IH _ Ep) as [rest ->]. exists rest. reflexivity.
Qed.

Lemma map_chars_app f a b :
  PyStr.map_chars f (a +:+ b) = PyStr.map_chars f a +:+ PyStr.map_chars f b.
Proof.
  induction a as [|x a IH]; [reflexivity|].
  change (String (f x) (PyStr.map_chars f (a +:+ b))
          = String (f x) (PyStr.map_chars f a +:+ PyStr.map_chars f b)).
  rewrite IH. reflexivity.
Qed.

Lemma starts_with_append p rest : PyStr.starts_with p (p +:+ rest) = true.
Proof.
  induction p as [|a p IH]; [reflexivity|].
  simpl. rewrite Ascii.eqb_refl. exact IH.
Qed.

(** A prefix that a character map leaves as it is stays a prefix. *)
Lemma starts_with_map f p s :
  PyStr.map_chars f p = p ->
  PyStr.starts_with p s = true ->
  PyStr.starts_with p (PyStr.map_chars f s) = true.
Proof.
  intros Hp E. apply starts_with_app in E as [rest ->].
  rewrite map_chars_app, Hp. apply starts_with_append.
Qed.

Lemma namespaced_map f tag :
  PyStr.map_chars f "group." = "group." ->
  PyStr.map_chars f "label." = "label." ->
  PyStr.map_chars f "event." = "event." ->
  PyStr.map_chars f "genre." = "genre." ->
  namespaced tag -> namespaced (PyStr.map_chars f tag).
Proof.
  intros G L E R [N|[N|[N|N]]];
    [left | right; left | right; right; left | right; right; right];
    apply starts_with_map; assumption.
Qed.

Lemma Forall_map_impl {A B} (Q : A -> Prop) (P : B -> Prop) (f : A -> B) l :
  Forall Q l -> (forall x, Q x -> P (f x)) -> Forall P (map f l).
Proof.
  intros Hall Himp. induction Hall as [|x l Hx _ IH]; simpl; constructor; auto.
Qed.

(** X7.  No tag of a record that [_lookup_metadata] returns holds a comma. *)
Theorem record_tags_without_comma url (s : State (Date H)) md :
  snd (_lookup_metadata H prefs url s) = Return (Some md) ->
  Forall (fun tag => PyStr.has_char "," tag = false) (md_tags md).
Proof.
  intros Hlook. destruct (lookup_metadata_inv H prefs url s) as [_ Hex].
  apply Hex in Hlook as (u & tree & final & title & _ & _ & _ & E & _ & _).
  apply parse_page_tags in E as (_ & _ & tags & _ & ->).
  apply (Forall_map_impl (fun _ => True)); [apply Forall_true; auto|].
  intros tag _. rewrite replace_comma. apply comma_to_space_no_comma.
Qed.

(** X8.  Every tag of a record that [_lookup_metadata] returns begins with
    [group.], [label.], [event.] or [genre.]. *)
Theorem record_tags_namespaced url (s : State (Date H)) md :
  snd (_lookup_metadata H prefs url s) = Return (Some md) ->
  Forall namespaced (md_tags md).
Proof.
  intros Hlook. destruct (lookup_metadata_inv H prefs url s) as [_ Hex].
  apply Hex in Hlook as (u & tree & final & title & _ & _ & _ & E & _ & _).
  apply parse_page_tags in E as (_ & _ & tags & Hns & ->).
  apply (Forall_map_impl namespaced); [exact Hns|].
  intros tag N. rewrite replace_comma.
  apply namespaced_map; [reflexivity .. | exact N].
Qed.

End Tags.

Section TagsWitnesses.

Import DLsiteMetadata Canned Pages.

Example page_comma_tags :
  md_tags (record_of page_comma (prefs_en 1 "" "") url_c) = ["group.Foo  Inc"].
Proof. vm_compute. reflexivity. Qed.

Lemma record_tags_without_comma_witness :
  Forall (fun tag => PyStr.has_char "," tag = false)
    (md_tags (record_of page_comma (prefs_en 1 "" "") url_c)).
Proof.
  apply (record_tags_without_comma (host (only page_comma)) (prefs_en 1 "" "")
           (Some url_c) init).
  vm_compute. reflexivity.
Defined.

Lemma record_tags_namespaced_witness :
  Forall namespaced (md_tags (record_of page_comma (prefs_en 1 "" "") url_c)).
Proof.
  apply (record_tags_namespaced (host (only page_comma)) (prefs_en 1 "" "")
           (Some url_c) init).
  vm_compute. reflexivity.
Defined.

End TagsWitnesses.

(** ** The tag blacklist and the name spaces *)

Section TagBlacklist.

Context (H : Host) (prefs : Prefs).

Import DLsiteMetadata.

Lemma lower_ascii_dot a :
  Ascii.eqb (PyStr.lower_ascii a) "." = Ascii.eqb a ".".
Proof. destruct a as [[] [] [] [] [] [] [] []]; reflexivity. Qed.

Lemma has_dot_lower s :
  PyStr.has_char "." (PyStr.lower s) = PyStr.has_char "." s.
Proof.
  unfold PyStr.lower. induction s as [|a s IH]; [reflexivity|].
  cbn [PyStr.map_chars PyStr.has_char]. rewrite IH, lower_ascii_dot.
  reflexivity.
Qed.

Lemma namespaced_has_dot tag : namespaced tag -> PyStr.has_char "." tag = true.
Proof.
  intros [N|[N|[N|N]]]; apply starts_with_app in N as [rest ->];
    rewrite has_char_app; reflexivity.
Qed.

(** X9.  An entry of [tag_blacklist] without a ['.'], a tag written without
    its name space, rejects nothing: a page that is fetched and parsed,
    whose cover block returns and whose title passes, gives its record. *)
Theorem plain_tag_entries_never_reject u (s s1 : State (Date H)) tree
    final_url title md :
  open_novisit H (requests s) u = Some (tree, final_url) ->
  PyStr.contains "/keyword" final_url = false ->
  parse_page H prefs u tree = Return (title, md) ->
  cache_cover H u tree (record_request H u s) = (s1, Return tt) ->
  set_bool (_check_title_blacklist prefs title) = false ->
  (forall entry, entry ∈ blacklist_of (tag_blacklist prefs) ->
                 PyStr.has_char "." entry = false) ->
  _lookup_metadata H prefs (Some u) s = (s1, Return (Some md)).
Proof.
  intros Hopen Hkey Hparse Hcover Htitle Hplain.
  assert (Htags : set_bool (_check_tag_blacklist prefs (md_tags md)) = false).
  { unfold _check_tag_blacklist.
    destruct (str_bool (tag_blacklist prefs)); [|reflexivity]. simpl.
    apply negb_false_iff, bool_decide_eq_true, elem_of_equiv_empty_L.
    intros x Hx. apply elem_of_intersection in Hx as [Hentry Htag].
    apply elem_of_list_to_set, list_elem_of_In, in_map_iff in Htag
      as (tag & <- & Hin).
    apply Hplain in Hentry. rewrite has_dot_lower in Hentry.
    apply parse_page_tags in Hparse as (_ & _ & tags & Hns & Etags).
    rewrite Etags in Hin. apply in_map_iff in Hin as (t0 & <- & Hin0).
    rewrite Forall_forall in Hns. apply list_elem_of_In, Hns in Hin0.
    rewrite replace_comma in Hentry.
    apply (namespaced_map comma_to_space) in Hin0; try reflexivity.
    apply namespaced_has_dot in Hin0. congruence. }
  unfold _lookup_metadata, bind, _get_webpage, lift.
  rewrite Hopen, Hkey, Hparse, Hcover, Htitle, Htags. reflexivity.
Qed.

End TagBlacklist.

Section TagBlacklistWitnesses.

Import DLsiteMetadata Canned Pages.

Example page_genres_tags :
  md_tags (record_of page_genres (prefs_en 1 "" "comedy") url_c)
  = ["genre.Comedy"; "genre.School"].
Proof. vm_compute. reflexivity. Qed.

(** The entry [comedy] does not reject the tag [genre.Comedy]; the entry
    [genre.comedy] does. *)
Lemma plain_tag_entries_never_reject_witness :
  _lookup_metadata (host (only page_genres)) (prefs_en 1 "" "comedy")
    (Some url_c) init
  = ({| requests := [url_c]; cover_urls := ∅; result_queue := [] |},
     Return (Some (record_of page_genres (prefs_en 1 "" "") url_c))).
Proof.
  apply (plain_tag_entries_never_reject (host (only page_genres))
           (prefs_en 1 "" "comedy") url_c init _ (root page_genres) url_c
           "Seventh Book").
  - reflexivity.
  - reflexivity.
  - vm_compute. reflexivity.
  - reflexivity.
  - reflexivity.
  - intros entry Hin.
    change (entry ∈ (list_to_set ["comedy"] : gset string)) in Hin.
    apply elem_of_list_to_set, list_elem_of_In in Hin.
    destruct Hin as [<-|[]]. reflexivity.
Defined.

Example namespaced_entry_rejects :
  snd (_lookup_metadata (host (only page_genres)) (prefs_en 1 "" "Genre.Comedy")
         (Some url_c) init)
  = Return None.
Proof. vm_compute. reflexivity. Qed.

End TagBlacklistWitnesses.

(** ** Where a record comes from *)

Section RecordOrigin.

Context (H : Host) (prefs : Prefs).

Import DLsiteMetadata.

Lemma parse_page_title url tree title md :
  parse_page H prefs url tree = Return (title, md) ->
  exists e t,
    head (xpath H tree "//li[@class='topicpath_item'][last()]/a/span") = Some e
    /\ text H e = Some t
    /\ title = PyStr.strip t.
Proof.
  unfold parse_page. intros E.
  step E e Ee. step E title0 Etitle. step E u Elocale.
  step E acc1 Emaker. destruct acc1 as [md1 tags1].
  step E acc2 Eoutline. destruct acc2 as [md2 tags2].
  inversion E; subst title0.
  destruct (xpath H tree "//li[@class='topicpath_item'][last()]/a/span")
    as [|e0 l]; [discriminate|].
  inversion Ee; subst e0.
  destruct (text H e) as [t|] eqn:Et; [|discriminate].
  exists e, t. split; [reflexivity|]. split; [exact Et|]. congruence.
Qed.

(** X10.  A record that [_lookup_metadata] returns for a URL has the stripped
    text of the first title element of the fetched page as its title,
    the identifier read from the URL, not from the page, as its only
    identifier, and neither an [isbn] nor a rank yet. *)
Theorem record_origin u (s : State (Date H)) md :
  snd (_lookup_metadata H prefs (Some u) s) = Return (Some md) ->
  md_identifiers md = {[ "dlsite" := url_product_id u ]}
  /\ md_isbn md = None
  /\ md_source_relevance md = None
  /\ exists tree final_url e t,
      open_novisit H (requests s) u = Some (tree, final_url)
      /\ head (xpath H tree "//li[@class='topicpath_item'][last()]/a/span")
         = Some e
      /\ text H e = Some t
      /\ md_title md = PyStr.strip t.
Proof.
  intros Hlook. destruct (lookup_metadata_inv H prefs (Some u) s) as [_ Hex].
  apply Hex in Hlook
    as (u' & tree & final & title & [= <-] & Hopen & _ & E & _ & _).
  destruct (parse_page_origin H prefs _ _ _ _ E) as [Ht Hid].
  destruct (parse_page_tags H prefs _ _ _ _ E) as (Hisbn & Hrank & _).
  destruct (parse_page_title _ _ _ _ E) as (e & t & He & Hte & Htitle).
  split; [exact Hid|]. split; [exact Hisbn|]. split; [exact Hrank|].
  exists tree, final, e, t. rewrite Ht. auto.
Qed.

Lemma cache_cover_requests url tree (s : State (Date H)) :
  requests (fst (cache_cover H url tree s)) = requests s.
Proof.
  unfold cache_cover, bind, lift.
  destruct (xpath H tree "//picture/source/img") as [|e l]; [reflexivity|].
  destruct (str_add "https:" (get H e "srcset")); reflexivity.
Qed.

(** [_lookup_metadata] makes one request, for the URL it is given, and
    none when there is no URL. *)
Lemma lookup_metadata_requests url (s : State (Date H)) :
  requests (fst (_lookup_metadata H prefs url s))
  = requests s ++ match url with Some u => [u] | None => [] end.
Proof.
  unfold _lookup_metadata, bind, _get_webpage.
  destruct url as [u|]; [|simpl; rewrite app_nil_r; reflexivity].
  destruct (open_novisit H (requests s) u) as [[tree final]|]; [|reflexivity].
  destruct (PyStr.contains "/keyword" final); [reflexivity|].
  unfold lift. destruct (parse_page H prefs u tree) as [[title md]|e];
    [|reflexivity].
  pose proof (cache_cover_requests u tree (record_request H u s)) as Hr.
  destruct (cache_cover H u tree (record_request H u s)) as [s1 [[]|e]];
    simpl in Hr; [|exact Hr].
  destruct (set_bool (_check_title_blacklist prefs title)); [exact Hr|].
  destruct (set_bool (_check_tag_blacklist prefs (md_tags md))); exact Hr.
Qed.

Lemma lookup_metadata_cover u (s : State (Date H)) tree final_url title md
    e rest srcset :
  open_novisit H (requests s) u = Some (tree, final_url) ->
  PyStr.contains "/keyword" final_url = false ->
  parse_page H prefs u tree = Return (title, md) ->
  xpath H tree "//picture/source/img" = e :: rest ->
  get H e "srcset" = Some srcset ->
  cover_urls (fst (_lookup_metadata H prefs (Some u) s))
  = <[url_product_id u := "https:" +:+ srcset]> (cover_urls s)
  /\ exists r, snd (_lookup_metadata H prefs (Some u) s) = Return r
               /\ (r = None \/ r = Some md).
Proof.
  intros Hopen Hkey Hparse Himg Hsrc.
  unfold _lookup_metadata, bind, _get_webpage, lift, cache_cover.
  rewrite Hopen, Hkey, Hparse, Himg. unfold bind, lift. rewrite Hsrc. simpl.
  destruct (set_bool (_check_title_blacklist prefs title)); simpl; [eauto|].
  destruct (set_bool (_check_tag_blacklist prefs (md_tags md))); simpl; eauto.
Qed.

(** X11.  When a page is fetched and parsed and has an image with a [srcset],
    the URL of the cover is in the cache under the identifier of the URL
    once [_lookup_metadata] is done, whether the record is returned or
    rejected by a blacklist, and [get_cached_cover_url] finds it there. *)
Theorem cover_cached_before_blacklists u (s : State (Date H)) tree final_url
    title md e rest srcset :
  open_novisit H (requests s) u = Some (tree, final_url) ->
  PyStr.contains "/keyword" final_url = false ->
  parse_page H prefs u tree = Return (title, md) ->
  xpath H tree "//picture/source/img" = e :: rest ->
  get H e "srcset" = Some srcset ->
  let s' := fst (_lookup_metadata H prefs (Some u) s) in
  cover_urls s' = <[url_product_id u := "https:" +:+ srcset]> (cover_urls s)
  /\ DLsiteMetadataCover.get_cached_cover_url H
       {[ "dlsite" := url_product_id u ]} s'
     = Some ("https:" +:+ srcset)
  /\ exists r, snd (_lookup_metadata H prefs (Some u) s) = Return r
               /\ (r = None \/ r = Some md).
Proof.
  intros Hopen Hkey Hparse Himg Hsrc s'. subst s'.
  destruct (lookup_metadata_cover u s tree final_url title md e rest srcset
              Hopen Hkey Hparse Himg Hsrc) as [Hc Hr].
  split; [exact Hc|]. split; [|exact Hr].
  unfold DLsiteMetadataCover.get_cached_cover_url,
    DLsiteMetadataCover.cached_cover_url_of.
  rewrite lookup_singleton_eq, Hc. apply lookup_insert_eq.
Qed.

End RecordOrigin.

Section RecordOriginWitnesses.

Import DLsiteMetadata Canned Pages.

Lemma record_origin_witness :
  let md := record_of page_a (prefs_en 1 "" "") url_a in
  md_identifiers md = {[ "dlsite" := url_product_id url_a ]}
  /\ md_isbn md = None
  /\ md_source_relevance md = None
  /\ exists tree final_url e t,
      open_novisit (host (only page_a)) (requests init) url_a
      = Some (tree, final_url)
      /\ head (xpath (host (only page_a)) tree
                 "//li[@class='topicpath_item'][last()]/a/span") = Some e
      /\ text (host (only page_a)) e = Some t
      /\ md_title md = PyStr.strip t.
Proof.
  apply (record_origin (host (only page_a)) (prefs_en 1 "" "") url_a init).
  vm_compute. reflexivity.
Defined.

(** The page of a blacklisted title with a cover: the record is rejected,
    the cover is in the cache. *)
Lemma cover_cached_before_blacklists_witness :
  let h := host (only page_omnibus_cover) in
  let prefs := prefs_en 1 "omnibus" "" in
  let s' := fst (_lookup_metadata h prefs (Some url_c) init) in
  snd (_lookup_metadata h prefs (Some url_c) init) = Return None
  /\ cover_urls s'
     = <[url_product_id url_c := "https:" +:+ "//img.dlsite.jp/BJ004.jpg"]>
         (cover_urls init)
  /\ DLsiteMetadataCover.get_cached_cover_url h
       {[ "dlsite" := url_product_id url_c ]} s'
     = Some ("https:" +:+ "//img.dlsite.jp/BJ004.jpg").
Proof.
  intros h prefs s'. split; [vm_compute; reflexivity|].
  destruct (cover_cached_before_blacklists h prefs url_c init
              (root page_omnibus_cover) url_c "The Great Omnibus, Vol. 1"
              (set_identifiers (Metadata_new "The Great Omnibus, Vol. 1")
                 {[ "dlsite" := "BJ004" ]})
              (page_omnibus_cover,
               Node None [("srcset", "//img.dlsite.jp/BJ004.jpg")] [])
              [] "//img.dlsite.jp/BJ004.jpg")
    as (Hc & Hg & _);
    [reflexivity | reflexivity | vm_compute; reflexivity
     | reflexivity | reflexivity |].
  split; assumption.
Defined.

End RecordOriginWitnesses.

(** ** The runs of [identify] *)

Section Runs.

Context (H : Host) (prefs : Prefs).

Import DLsiteMetadata.

(** The loop over one candidate: one request, for the candidate, and at
    most one record, with the rank 0, no [isbn] and the identifier read
    from the candidate. *)
Lemma identify_single_candidate u (s1 : State (Date H)) :
  let run := identify_loop H prefs 1 [Some u] 0 s1 in
  snd run = Return tt
  /\ requests (fst run) = requests s1 ++ [u]
  /\ (result_queue (fst run) = result_queue s1
      \/ exists r,
          result_queue (fst run) = result_queue s1 ++ [r]
          /\ md_source_relevance r = Some 0
          /\ md_isbn r = None
          /\ md_identifiers r = {[ "dlsite" := url_product_id u ]}).
Proof.
  cbn [identify_loop].
  pose proof (lookup_metadata_requests H prefs (Some u) s1) as Hreq.
  destruct (lookup_metadata_inv H prefs (Some u) s1) as [Hq Hex].
  destruct (_lookup_metadata H prefs (Some u) s1) as [s2 [[md|]|e]] eqn:E;
    simpl in Hreq, Hq, Hex |- *.
  - split; [reflexivity|]. split; [exact Hreq|]. right.
    destruct (Hex md eq_refl)
      as (u' & tree & final & title & [= <-] & _ & _ & Hparse & _ & _).
    destruct (parse_page_origin H prefs _ _ _ _ Hparse) as [_ Hid].
    destruct (parse_page_tags H prefs _ _ _ _ Hparse) as (Hisbn & _ & _).
    eexists. split; [rewrite Hq; reflexivity|]. simpl. auto.
  - split; [reflexivity|]. split; [exact Hreq|]. left. exact Hq.
  - split; [reflexivity|]. split; [exact Hreq|]. left. exact Hq.
Qed.

(** X12.  With an identifier, [identify] returns normally after exactly two
    requests, both for the product URL and none for a search, and puts
    at most one record on the queue: its rank is 0, it has no [isbn],
    and its identifier is the one read back from the product URL. *)
Theorem identify_known_identifier_run title authors
    (identifiers : gmap string string) product_id (s : State (Date H)) :
  identifiers !! "dlsite" = Some product_id ->
  str_bool product_id = true ->
  let url := product_url prefs product_id in
  let run := identify H prefs title authors identifiers s in
  snd run = Return tt
  /\ requests (fst run) = requests s ++ [url; url]
  /\ (result_queue (fst run) = result_queue s
      \/ exists r,
          result_queue (fst run) = result_queue s ++ [r]
          /\ md_source_relevance r = Some 0
          /\ md_isbn r = None
          /\ md_identifiers r = {[ "dlsite" := url_product_id url ]}).
Proof.
  intros Hid Hne url run. subst run.
  rewrite identify_unfold, (identify_urls_known H prefs _ _ _ _ s Hid Hne).
  fold url. cbn [length].
  destruct (identify_single_candidate url (record_request H url s))
    as (Hret & Hreq & Hrec).
  split; [exact Hret|]. split; [|exact Hrec].
  rewrite Hreq. simpl. rewrite <- app_assoc. reflexivity.
Qed.

(** X13.  A search that the shop answers with a product page has one
    candidate, the search URL itself: [identify] returns normally after
    two requests of the search URL and puts at most one record on the
    queue, with the rank 0, no [isbn], and the identifier read from the
    search URL, not from the page the shop redirected to. *)
Theorem identify_redirected_search_run title authors
    (identifiers : gmap string string) (s : State (Date H)) tree final_url :
  identifiers !! "dlsite" = None
  \/ identifiers !! "dlsite" = Some EmptyString ->
  str_bool (_generate_query H prefs title authors) = true ->
  let url := _get_search_url (_generate_query H prefs title authors) in
  open_novisit H (requests s) url = Some (tree, final_url) ->
  PyStr.contains "/keyword" final_url = false ->
  let run := identify H prefs title authors identifiers s in
  snd (identify_urls H prefs title authors identifiers s) = Return [Some url]
  /\ snd run = Return tt
  /\ requests (fst run) = requests s ++ [url; url]
  /\ (result_queue (fst run) = result_queue s
      \/ exists r,
          result_queue (fst run) = result_queue s ++ [r]
          /\ md_source_relevance r = Some 0
          /\ md_isbn r = None
          /\ md_identifiers r = {[ "dlsite" := url_product_id url ]}).
Proof.
  intros Hid Hquery url Hopen Hkey run. subst run.
  assert (Hurls : identify_urls H prefs title authors identifiers s
                  = (record_request H url s, Return [Some url])).
  { rewrite identify_urls_search by exact Hid. rewrite Hquery.
    unfold _perform_query, bind, _get_webpage. fold url.
    rewrite Hopen, Hkey. reflexivity. }
  rewrite identify_unfold, Hurls. cbn [length snd].
  destruct (identify_single_candidate url (record_request H url s))
    as (Hret & Hreq & Hrec).
  split; [reflexivity|]. split; [exact Hret|]. split; [|exact Hrec].
  rewrite Hreq. simpl. rewrite <- app_assoc. reflexivity.
Qed.

(** X14.  With no identifier, no token in the title and no author, [identify]
    makes no request, puts nothing on the queue and returns. *)
Theorem identify_nothing_to_search title authors
    (identifiers : gmap string string) (s : State (Date H)) :
  identifiers !! "dlsite" = None
  \/ identifiers !! "dlsite" = Some EmptyString ->
  get_title_tokens H title = [] ->
  authors = None \/ authors = Some [] ->
  identify H prefs title authors identifiers s = (s, Return tt).
Proof.
  intros Hid Htokens Hauthors.
  assert (Hquery : _generate_query H prefs title authors = EmptyString).
  { unfold _generate_query. rewrite Htokens.
    destruct Hauthors as [-> | ->]; reflexivity. }
  rewrite identify_unfold, identify_urls_search by exact Hid.
  rewrite Hquery. reflexivity.
Qed.

Lemma sorted_bounded_length (l : list nat) (first bound : nat) :
  StronglySorted lt l ->
  Forall (fun i => first <= i < bound) l ->
  length l <= bound - first.
Proof.
  revert first. induction l as [|x l IH]; intros first Hsort Hall; simpl.
  - lia.
  - inversion Hsort as [|? ? Hsort' Hlt]; subst.
    inversion Hall as [|? ? Hx Hall']; subst.
    assert (Hl : length l <= bound - S x).
    { apply IH; [exact Hsort'|].
      rewrite Forall_forall in Hlt, Hall' |- *.
      intros i Hi. specialize (Hlt i Hi). specialize (Hall' i Hi). lia. }
    lia.
Qed.

(** The loop puts at most one record per candidate on the queue. *)
Lemma identify_loop_count len_urls urls first (s : State (Date H)) :
  exists emitted,
    result_queue (fst (identify_loop H prefs len_urls urls first s))
    = result_queue s ++ emitted
    /\ length emitted <= length urls.
Proof.
  destruct (identify_loop_picks H prefs len_urls urls first s)
    as (_ & picks & Hq & Hsort & Hall).
  exists (map snd picks). split; [exact Hq|].
  rewrite length_map, <- (length_map fst picks).
  replace (length urls) with (first + length urls - first) by lia.
  apply sorted_bounded_length; [exact Hsort|].
  apply Forall_map. eapply Forall_impl; [exact Hall|].
  intros [i r] (Hle & url & s0 & md & Hu & _). simpl in *.
  apply lookup_lt_Some in Hu. lia.
Qed.

(** X15.  Whatever it is called with, [identify] puts at most [num_matches]
    records on the queue, when [num_matches] is positive. *)
Theorem identify_emits_at_most_num_matches title authors identifiers
    (s : State (Date H)) :
  1 <= num_matches prefs ->
  exists emitted,
    result_queue (fst (identify H prefs title authors identifiers s))
    = result_queue s ++ emitted
    /\ length emitted <= num_matches prefs.
Proof.
  intros Hn. rewrite identify_unfold.
  pose proof (identify_urls_queue H prefs title authors identifiers s) as Hq.
  assert (Hlen : forall urls,
             snd (identify_urls H prefs title authors identifiers s)
             = Return urls -> length urls <= num_matches prefs).
  { intros urls.
    destruct (identifiers !! "dlsite") as [[|c pid]|] eqn:Hid.
    - rewrite identify_urls_search by auto.
      destruct (str_bool _); [|intros [= <-]; simpl; lia].
      destruct (perform_query_requests H prefs
                  (_generate_query H prefs title authors) s)
        as (k & _ & _ & Hl). intros E. apply Hl; assumption.
    - erewrite identify_urls_known by (eauto; reflexivity).
      intros [= <-]. simpl. exact Hn.
    - rewrite identify_urls_search by auto.
      destruct (str_bool _); [|intros [= <-]; simpl; lia].
      destruct (perform_query_requests H prefs
                  (_generate_query H prefs title authors) s)
        as (k & _ & _ & Hl). intros E. apply Hl; assumption. }
  destruct (identify_urls H prefs title authors identifiers s)
    as [s1 [urls|e]]; simpl in Hq, Hlen.
  - destruct (identify_loop_count (length urls) urls 0 s1)
      as (emitted & He & Hcount).
    exists emitted. split; [rewrite He, Hq; reflexivity|].
    specialize (Hlen urls eq_refl). lia.
  - exists []. simpl. rewrite app_nil_r. split; [exact Hq | lia].
Qed.

End Runs.

Section RunsWitnesses.

Import DLsiteMetadata Canned Pages.

Lemma identify_known_identifier_run_witness :
  let prefs := prefs_en 3 "" "" in
  let url := product_url prefs "BJ001" in
  let run :=
    identify (host (only page_a)) prefs None None {[ "dlsite" := "BJ001" ]} init
  in
  snd run = Return tt
  /\ requests (fst run) = requests init ++ [url; url]
  /\ (result_queue (fst run) = result_queue init
      \/ exists r,
          result_queue (fst run) = result_queue init ++ [r]
          /\ md_source_relevance r = Some 0
          /\ md_isbn r = None
          /\ md_identifiers r = {[ "dlsite" := url_product_id url ]}).
Proof.
  apply (identify_known_identifier_run (host (only page_a)) (prefs_en 3 "" "")
           None None {[ "dlsite" := "BJ001" ]} "BJ001" init);
    reflexivity.
Defined.

Lemma identify_redirected_search_run_witness :
  let h := host (redirecting page_a url_a) in
  let prefs := prefs_en 3 "" "" in
  let run := identify h prefs (Some "foo") None ∅ init in
  snd (identify_urls h prefs (Some "foo") None ∅ init) = Return [Some search_foo]
  /\ snd run = Return tt
  /\ requests (fst run) = requests init ++ [search_foo; search_foo]
  /\ (result_queue (fst run) = result_queue init
      \/ exists r,
          result_queue (fst run) = result_queue init ++ [r]
          /\ md_source_relevance r = Some 0
          /\ md_isbn r = None
          /\ md_identifiers r = {[ "dlsite" := url_product_id search_foo ]}).
Proof.
  apply (identify_redirected_search_run (host (redirecting page_a url_a))
           (prefs_en 3 "" "") (Some "foo") None ∅ init (root page_a) url_a);
    [left; reflexivity | reflexivity | reflexivity | reflexivity].
Defined.

(** The identifier of the record of a redirected search is the query. *)
Example redirected_search_identifier :
  map (fun r => md_identifiers r !! "dlsite")
      (result_queue
         (fst (identify (host (redirecting page_a url_a)) (prefs_en 3 "" "")
                 (Some "foo") None ∅ init)))
  = [Some "foo"].
Proof. vm_compute. reflexivity. Qed.

Lemma identify_nothing_to_search_witness :
  identify (host shop) (prefs_en 3 "" "") None None ∅ init = (init, Return tt).
Proof.
  apply (identify_nothing_to_search (host shop) (prefs_en 3 "" "") None None ∅
           init);
    [left; reflexivity | reflexivity | left; reflexivity].
Defined.

Lemma identify_emits_at_most_num_matches_witness :
  exists emitted,
    result_queue
      (fst (identify (host shop) (prefs_en 1 "" "") (Some "foo") None ∅ init))
    = result_queue init ++ emitted
    /\ length emitted <= 1.
Proof.
  apply (identify_emits_at_most_num_matches (host shop) (prefs_en 1 "" "")
           (Some "foo") None ∅ init).
  simpl. lia.
Defined.

End RunsWitnesses.

(** ** The exceptions of [identify] *)

Section Exceptions.

Context (H : Host) (prefs : Prefs).

Import DLsiteMetadata.

Lemma pagination_raises fuel query results i (s : State (Date H)) e :
  snd (pagination H prefs fuel query results i s) = Raise e ->
  e = TypeError \/ e = AssertionError.
Proof.
  revert results i s. induction fuel as [|fuel IH]; intros results i s;
    cbn [pagination].
  - discriminate.
  - destruct ((length results <? num_matches prefs) && (i <? num_matches prefs));
      [|discriminate].
    unfold bind.
    destruct (get_webpage_request H (_get_search_url query) s)
      as [_ [page Hp]].
    destruct (_get_webpage H (Some (_get_search_url query)) s) as [s1 o].
    simpl in Hp. subst o. destruct page as [[tree|] is_search].
    + destruct (element_bool H tree && is_search).
      * destruct (_get_search_matches H tree) as [more|].
        -- apply IH.
        -- intros [= <-]. auto.
      * intros [= <-]. auto.
    + intros [= <-]. auto.
Qed.

Lemma perform_query_raises query (s : State (Date H)) e :
  snd (_perform_query H prefs query s) = Raise e ->
  e = TypeError \/ e = AssertionError.
Proof.
  unfold _perform_query, bind.
  destruct (get_webpage_request H (_get_search_url query) s) as [_ [page Hp]].
  destruct (_get_webpage H (Some (_get_search_url query)) s) as [s1 o].
  simpl in Hp. subst o. destruct page as [[tree|] is_search];
    [|discriminate].
  destruct is_search; [|discriminate]. cbn [negb].
  destruct (_get_search_matches H tree) as [results|];
    [|intros [= <-]; auto].
  pose proof (pagination_raises (num_matches prefs) query results 1 s1 e) as Hp.
  destruct (pagination H prefs (num_matches prefs) query results 1 s1)
    as [s2 [urls|e']]; [discriminate|].
  simpl in *. intros [= <-]. apply Hp. reflexivity.
Qed.

Lemma identify_raise_kind title authors (identifiers : gmap string string)
    (s : State (Date H)) e :
  snd (identify H prefs title authors identifiers s) = Raise e ->
  e = TypeError \/ e = AssertionError.
Proof.
  rewrite identify_unfold.
  destruct (identify_urls H prefs title authors identifiers s)
    as [s1 [urls|e']] eqn:E.
  - destruct (identify_loop_picks H prefs (length urls) urls 0 s1)
      as (Hret & _). rewrite Hret. discriminate.
  - simpl. intros [= <-].
    destruct (identifiers !! "dlsite") as [[|c pid]|] eqn:Hid.
    + rewrite identify_urls_search in E by auto.
      destruct (str_bool _); [|discriminate].
      apply (perform_query_raises (_generate_query H prefs title authors) s).
      rewrite E. reflexivity.
    + erewrite identify_urls_known in E by (eauto; reflexivity). discriminate.
    + rewrite identify_urls_search in E by auto.
      destruct (str_bool _); [|discriminate].
      apply (perform_query_raises (_generate_query H prefs title authors) s).
      rewrite E. reflexivity.
Qed.

(** X16.  An exception leaves [identify] only from the search: there was no
    identifier, the exception is a [TypeError] or an [AssertionError], and
    neither the queue nor the cover cache has changed. *)
Theorem identify_raises_only_from_search title authors
    (identifiers : gmap string string) (s : State (Date H)) e :
  snd (identify H prefs title authors identifiers s) = Raise e ->
  (e = TypeError \/ e = AssertionError)
  /\ (identifiers !! "dlsite" = None
      \/ identifiers !! "dlsite" = Some EmptyString)
  /\ result_queue (fst (identify H prefs title authors identifiers s))
     = result_queue s
  /\ cover_urls (fst (identify H prefs title authors identifiers s))
     = cover_urls s.
Proof.
  rewrite identify_unfold. intros Hraise.
  assert (Hsearch :
    forall s1, identify_urls H prefs title authors identifiers s = (s1, Raise e) ->
      (e = TypeError \/ e = AssertionError)
      /\ (identifiers !! "dlsite" = None
          \/ identifiers !! "dlsite" = Some EmptyString)
      /\ result_queue s1 = result_queue s /\ cover_urls s1 = cover_urls s).
  { intros s1.
    assert (Hq : forall Hid : identifiers !! "dlsite" = None
                         \/ identifiers !! "dlsite" = Some EmptyString,
               identify_urls H prefs title authors identifiers s = (s1, Raise e) ->
               (e = TypeError \/ e = AssertionError)
               /\ (identifiers !! "dlsite" = None
                   \/ identifiers !! "dlsite" = Some EmptyString)
               /\ result_queue s1 = result_queue s
               /\ cover_urls s1 = cover_urls s).
    { intros Hid. rewrite identify_urls_search by exact Hid.
      destruct (str_bool _); [|discriminate].
      destruct (perform_query_requests H prefs
                  (_generate_query H prefs title authors) s)
        as (k & _ & (_ & Hc & Hqueue) & _).
      pose proof (perform_query_raises
                    (_generate_query H prefs title authors) s e) as Hr.
      intros E. rewrite E in Hc, Hqueue, Hr. simpl in *. auto. }
    destruct (identifiers !! "dlsite") as [[|c pid]|] eqn:Hid.
    - apply Hq. auto.
    - erewrite identify_urls_known by (eauto; reflexivity). discriminate.
    - apply Hq. auto. }
  destruct (identify_urls H prefs title authors identifiers s)
    as [s1 [urls|e']] eqn:E.
  - destruct (identify_loop_picks H prefs (length urls) urls 0 s1)
      as (Hret & _). rewrite Hret in Hraise. discriminate.
  - simpl in Hraise. injection Hraise as ->. simpl. apply Hsearch. reflexivity.
Qed.

(** X17.  With [num_matches] at most 1, as it is by default, a search makes
    one request and no more, whatever the shop answers. *)
Theorem perform_query_single_request query (s : State (Date H)) :
  num_matches prefs <= 1 ->
  requests (fst (_perform_query H prefs query s))
  = requests s ++ [_get_search_url query].
Proof.
  intros Hn. unfold _perform_query, bind.
  destruct (get_webpage_request H (_get_search_url query) s) as [Hs [page Hp]].
  destruct (_get_webpage H (Some (_get_search_url query)) s) as [s1 o].
  simpl in Hs, Hp. subst s1 o. destruct page as [[tree|] is_search];
    [|reflexivity].
  destruct is_search; [|reflexivity]. cbn [negb].
  destruct (_get_search_matches H tree) as [results|]; [|reflexivity].
  destruct (pagination_requests H prefs (num_matches prefs) query results 1
              (record_request H (_get_search_url query) s))
    as (k & Hk & (Hreq & _ & _) & _).
  assert (k = 0) as -> by lia. simpl in Hreq. rewrite app_nil_r in Hreq.
  destruct (pagination H prefs (num_matches prefs) query results 1
              (record_request H (_get_search_url query) s)) as [s2 [urls|e]];
    exact Hreq.
Qed.

End Exceptions.

Section ExceptionsWitnesses.

Import DLsiteMetadata Canned Pages.

Lemma identify_raises_only_from_search_witness :
  let run := identify (host no_hits) (prefs_en 1 "" "") (Some "foo") None ∅ init in
  (TypeError = TypeError \/ TypeError = AssertionError)
  /\ ((∅ : gmap string string) !! "dlsite" = None
      \/ (∅ : gmap string string) !! "dlsite" = Some EmptyString)
  /\ result_queue (fst run) = result_queue init
  /\ cover_urls (fst run) = cover_urls init.
Proof.
  apply (identify_raises_only_from_search (host no_hits) (prefs_en 1 "" "")
           (Some "foo") None ∅ init TypeError).
  vm_compute. reflexivity.
Defined.

Lemma perform_query_single_request_witness :
  requests (fst (_perform_query (host shop) (prefs_en 1 "" "") "foo" init))
  = requests init ++ [_get_search_url "foo"].
Proof.
  apply (perform_query_single_request (host shop) (prefs_en 1 "" "") "foo" init).
  simpl. lia.
Defined.

End ExceptionsWitnesses.

(** ** The covers *)

Section Covers.

Context (H : Host) (prefs : Prefs) (C : CoverHost (Date H)).

Import DLsiteMetadata DLsiteMetadataCover.

(** X18.  Once [_lookup_metadata] has fetched and parsed a page with an image,
    [download_cover] with the identifier of that URL does not run
    [identify]: it makes one request, for the cover URL that was cached,
    and delivers what the client reads there, or nothing. *)
Theorem download_cover_after_lookup u (s : State (Date H)) tree final_url
    title md e rest srcset title' authors' :
  open_novisit H (requests s) u = Some (tree, final_url) ->
  PyStr.contains "/keyword" final_url = false ->
  parse_page H prefs u tree = Return (title, md) ->
  xpath H tree "//picture/source/img" = e :: rest ->
  get H e "srcset" = Some srcset ->
  let s' := fst (_lookup_metadata H prefs (Some u) s) in
  let cover_url := "https:" +:+ srcset in
  download_cover H prefs C title' authors' {[ "dlsite" := url_product_id u ]} s'
  = (record_request H cover_url s',
     Return (read_cover C (requests s') cover_url)).
Proof.
  intros Hopen Hkey Hparse Himg Hsrc s' cover_url.
  destruct (lookup_metadata_cover H prefs u s tree final_url title md e rest
              srcset Hopen Hkey Hparse Himg Hsrc) as [Hc _].
  fold s' in Hc.
  unfold download_cover, get_cached_cover_url, cached_cover_url_of.
  rewrite lookup_singleton_eq, Hc, lookup_insert_eq. reflexivity.
Qed.

(** X19.  An exception leaves [download_cover] only when no cover URL was
    cached for the identifiers, from the [identify] it runs then: it is
    a [TypeError] or an [AssertionError]. *)
Theorem download_cover_raises title authors (identifiers : gmap string string)
    (s : State (Date H)) e :
  snd (download_cover H prefs C title authors identifiers s) = Raise e ->
  url_bool (get_cached_cover_url H identifiers s) = false
  /\ (e = TypeError \/ e = AssertionError).
Proof.
  unfold download_cover.
  destruct (url_bool (get_cached_cover_url H identifiers s)) eqn:Ehit;
    cbn [negb].
  - unfold fetch_cover.
    destruct (get_cached_cover_url H identifiers s); discriminate.
  - pose proof (identify_raise_kind H prefs title authors identifiers
                  (with_new_queue H s) e) as Hkind.
    destruct (identify H prefs title authors identifiers (with_new_queue H s))
      as [s1 [[]|e']].
    + destruct (result_queue s1) as [|metadata q]; [discriminate|].
      unfold fetch_cover.
      destruct (cached_cover_url_of H (metadata_get C metadata "dlsite") s1);
        discriminate.
    + simpl. intros [= <-]. split; [reflexivity|]. apply Hkind. reflexivity.
Qed.

(** After a miss, a cover is requested only for a record that
    [Metadata.get] finds a [dlsite] field in. *)
Lemma download_cover_miss title authors (identifiers : gmap string string)
    (s s' : State (Date H)) o :
  url_bool (get_cached_cover_url H identifiers s) = false ->
  download_cover H prefs C title authors identifiers s = (s', Return o) ->
  (o = None
   /\ s' = fst (identify H prefs title authors identifiers (with_new_queue H s)))
  \/ exists metadata product_id,
      head (result_queue
              (fst (identify H prefs title authors identifiers
                      (with_new_queue H s)))) = Some metadata
      /\ metadata_get C metadata "dlsite" = Some product_id.
Proof.
  intros Hmiss. unfold download_cover. rewrite Hmiss. cbn [negb].
  destruct (identify H prefs title authors identifiers (with_new_queue H s))
    as [s1 [[]|e']]; [|discriminate].
  cbn [fst]. destruct (result_queue s1) as [|metadata q].
  - intros [= <- <-]. left. auto.
  - destruct (metadata_get C metadata "dlsite") as [product_id|] eqn:Eget.
    + intros _. right. exists metadata, product_id. auto.
    + cbn [cached_cover_url_of fetch_cover]. intros [= <- <-]. left. auto.
Qed.

(** X20.  When [Metadata.get] finds no field [dlsite] in a record, as for
    calibre's records, whose identifiers are under [identifiers]:
    [download_cover] called without a cached cover URL runs [identify],
    then requests no cover and delivers none, whatever [identify] found
    and cached. *)
Theorem download_cover_miss_delivers_nothing title authors
    (identifiers : gmap string string) (s s' : State (Date H)) o :
  (forall metadata, metadata_get C metadata "dlsite" = None) ->
  url_bool (get_cached_cover_url H identifiers s) = false ->
  download_cover H prefs C title authors identifiers s = (s', Return o) ->
  o = None
  /\ s' = fst (identify H prefs title authors identifiers (with_new_queue H s)).
Proof.
  intros Hget Hmiss Hrun.
  destruct (download_cover_miss _ _ _ _ _ _ Hmiss Hrun)
    as [Hnone | (metadata & product_id & _ & Hsome)]; [exact Hnone|].
  rewrite Hget in Hsome. discriminate.
Qed.

End Covers.

Section CoversWitnesses.

Import DLsiteMetadata DLsiteMetadataCover Canned Pages.

Lemma download_cover_after_lookup_witness :
  let h := host (only page_omnibus_cover) in
  let prefs := prefs_en 1 "omnibus" "" in
  let s' := fst (_lookup_metadata h prefs (Some url_c) init) in
  download_cover h prefs covers_everywhere None None
    {[ "dlsite" := url_product_id url_c ]} s'
  = (record_request h ("https:" +:+ "//img.dlsite.jp/BJ004.jpg") s',
     Return (read_cover covers_everywhere (requests s')
               ("https:" +:+ "//img.dlsite.jp/BJ004.jpg"))).
Proof.
  apply (download_cover_after_lookup (host (only page_omnibus_cover))
           (prefs_en 1 "omnibus" "") covers_everywhere url_c init
           (root page_omnibus_cover) url_c "The Great Omnibus, Vol. 1"
           (set_identifiers (Metadata_new "The Great Omnibus, Vol. 1")
              {[ "dlsite" := "BJ004" ]})
           (page_omnibus_cover,
            Node None [("srcset", "//img.dlsite.jp/BJ004.jpg")] [])
           [] "//img.dlsite.jp/BJ004.jpg" None None);
    [reflexivity | reflexivity | vm_compute; reflexivity
     | reflexivity | reflexivity].
Defined.

Lemma download_cover_raises_witness :
  url_bool (get_cached_cover_url (host no_hits) ∅ init) = false
  /\ (TypeError = TypeError \/ TypeError = AssertionError).
Proof.
  apply (download_cover_raises (host no_hits) (prefs_en 1 "" "")
           covers_everywhere (Some "foo") None ∅ init TypeError).
  vm_compute. reflexivity.
Defined.

(** A search finds the first book and caches its cover, and yet no cover
    is requested or delivered. *)
Lemma download_cover_miss_delivers_nothing_witness :
  let h := host shop_with_cover in
  let prefs := prefs_en 1 "" "" in
  let s' := fst (identify h prefs (Some "foo") None ∅ (with_new_queue h init)) in
  cover_urls s' !! "BJ001" = Some "https://img.dlsite.jp/BJ001.jpg"
  /\ requests s' = [search_foo; url_a]
  /\ (@None string = None /\ s' = s').
Proof.
  intros h prefs s'. split; [vm_compute; reflexivity|].
  split; [vm_compute; reflexivity|].
  apply (download_cover_miss_delivers_nothing h prefs covers_everywhere
           (Some "foo") None ∅ init s' None).
  - reflexivity.
  - reflexivity.
  - vm_compute. reflexivity.
Defined.

End CoversWitnesses.

(** ** Letter case in the title check *)

Section LetterCase.

Import PyStr DLsiteMetadata.

Lemma lower_ascii_idem a : lower_ascii (lower_ascii a) = lower_ascii a.
Proof. destruct a as [[] [] [] [] [] [] [] []]; reflexivity. Qed.

Lemma lower_ascii_punctuation a :
  is_punctuation (lower_ascii a) = is_punctuation a.
Proof. destruct a as [[] [] [] [] [] [] [] []]; reflexivity. Qed.

Lemma lower_ascii_space a : is_space (lower_ascii a) = is_space a.
Proof. destruct a as [[] [] [] [] [] [] [] []]; reflexivity. Qed.

Lemma lower_ascii_comma a :
  Ascii.eqb (lower_ascii a) "," = Ascii.eqb a ",".
Proof. destruct a as [[] [] [] [] [] [] [] []]; reflexivity. Qed.

Lemma lower_idem s : lower (lower s) = lower s.
Proof.
  unfold lower. induction s as [|a s IH]; [reflexivity|].
  cbn [map_chars]. rewrite lower_ascii_idem, IH. reflexivity.
Qed.

Lemma remove_punctuation_lower s :
  remove_punctuation (lower s) = lower (remove_punctuation s).
Proof.
  unfold remove_punctuation, lower. induction s as [|a s IH]; [reflexivity|].
  cbn [map_chars filter_chars]. rewrite lower_ascii_punctuation.
  destruct (is_punctuation a); cbn [negb map_chars]; rewrite IH; reflexivity.
Qed.

Lemma split_map_chars f sep s :
  (forall a, Ascii.eqb (f a) sep = Ascii.eqb a sep) ->
  split sep (map_chars f s) = map (map_chars f) (split sep s).
Proof.
  intros Hf. induction s as [|a s IH]; [reflexivity|].
  cbn [map_chars split]. rewrite Hf, IH.
  destruct (Ascii.eqb a sep); [reflexivity|].
  destruct (split sep s); reflexivity.
Qed.

Lemma lstrip_map_chars f drop s :
  (forall a, drop (f a) = drop a) ->
  lstrip_by drop (map_chars f s) = map_chars f (lstrip_by drop s).
Proof.
  intros Hf. induction s as [|a s IH]; [reflexivity|].
  cbn [map_chars lstrip_by]. rewrite Hf, IH.
  destruct (drop a); reflexivity.
Qed.

Lemma rev_map_chars f s :
  rev_string (map_chars f s) = map_chars f (rev_string s).
Proof.
  induction s as [|a s IH]; [reflexivity|].
  cbn [map_chars rev_string]. rewrite IH, map_chars_app. reflexivity.
Qed.

Lemma strip_lower s : strip (lower s) = lower (strip s).
Proof.
  unfold strip, rstrip_by, lower.
  rewrite (lstrip_map_chars _ _ _ lower_ascii_space), rev_map_chars,
    (lstrip_map_chars _ _ _ lower_ascii_space), rev_map_chars.
  reflexivity.
Qed.

Lemma blacklist_of_lower option :
  blacklist_of (lower option) = blacklist_of option.
Proof.
  unfold blacklist_of. f_equal. unfold lower at 1.
  rewrite (split_map_chars _ _ _ lower_ascii_comma), map_map.
  apply map_ext. intros x. fold (lower x).
  rewrite strip_lower, lower_idem. reflexivity.
Qed.

Lemma str_bool_lower s : str_bool (lower s) = str_bool s.
Proof. destruct s; reflexivity. Qed.

(** X21.  For a title and an option of ASCII characters, the title check
    does not see the case of the letters, neither in the title nor in the
    option: lowering either of them changes nothing of what the check
    returns.  (Outside ASCII [str.lower] depends on the neighbours of a
    letter, and this is not claimed.) *)
Theorem title_check_ignores_case (prefs prefs' : Prefs) (title : string) :
  ascii_only title = true ->
  ascii_only (title_blacklist prefs) = true ->
  title_blacklist prefs' = lower (title_blacklist prefs) ->
  _check_title_blacklist prefs' title = _check_title_blacklist prefs title
  /\ _check_title_blacklist prefs (lower title)
     = _check_title_blacklist prefs title.
Proof.
  intros _ _ Hopt. unfold _check_title_blacklist, title_words.
  rewrite Hopt, str_bool_lower, blacklist_of_lower,
    remove_punctuation_lower, lower_idem.
  split; reflexivity.
Qed.

End LetterCase.

Lemma title_check_ignores_case_witness :
  DLsiteMetadata._check_title_blacklist (Pages.prefs_en 1 "omnibus, vol" "")
    "The Great OMNIBUS"
  = DLsiteMetadata._check_title_blacklist (Pages.prefs_en 1 "Omnibus, VOL" "")
      "The Great OMNIBUS"
  /\ DLsiteMetadata._check_title_blacklist (Pages.prefs_en 1 "Omnibus, VOL" "")
       (PyStr.lower "The Great OMNIBUS")
     = DLsiteMetadata._check_title_blacklist (Pages.prefs_en 1 "Omnibus, VOL" "")
         "The Great OMNIBUS".
Proof.
  apply (title_check_ignores_case (Pages.prefs_en 1 "Omnibus, VOL" "")
           (Pages.prefs_en 1 "omnibus, vol" "") "The Great OMNIBUS").
  - reflexivity.
  - reflexivity.
  - reflexivity.
Defined.

(** ** The empty entry of a blacklist *)

Section EmptyEntry.

Import PyStr DLsiteMetadata.





End EmptyEntry.


(** ** Genres, circles and the book URL *)

Section Rows.

Context (H : Host) (prefs : Prefs).

Import DLsiteMetadata.

Lemma genre_tags_names xs names tags :
  map (text H) xs = map Some names ->
  for_each (fun x tags =>
              let? tag := str_add "genre." (text H x) in
              Return (tags ++ [tag])) xs tags
  = Return (tags ++ map (fun name => "genre." +:+ name) names).
Proof.
  revert names tags. induction xs as [|x xs IH]; intros [|name names] tags E;
    try discriminate.
  - simpl. rewrite app_nil_r. reflexivity.
  - injection E as Ex Exs. cbn [for_each]. rewrite Ex. cbn [str_add obind].
    rewrite (IH names _ Exs), <- app_assoc. reflexivity.
Qed.

(** In every locale the [Genre] label differs from the four labels that
    are tested before it. *)
Lemma genre_label_apart t :
  translation prefs = Return t ->
  String.eqb (L10n.Genre t) (L10n.Release_date t) = false
  /\ String.eqb (L10n.Genre t) (L10n.Author2 t) = false
  /\ String.eqb (L10n.Genre t) (L10n.Series_name t) = false
  /\ String.eqb (L10n.Genre t) (L10n.Event t) = false.
Proof.
  unfold translation.
  destruct (L10n.assoc (country prefs) L10n.TRANSLATIONS) as [t'|] eqn:E;
    [|discriminate].
  intros Ht. assert (t' = t) as -> by congruence. clear Ht.
  apply assoc_In in E. simpl in E.
  repeat (destruct E as [<-|E]; [repeat split; reflexivity|]).
  contradiction.
Qed.

(** X23.  A row of the outline table labelled [Genre] adds one tag per anchor
    of the genres of the document, in their order, [genre.] followed by
    the text of the anchor, and leaves the record as it is. *)
Theorem genre_row_tags x t names md tags :
  translation prefs = Return t ->
  descriptor_of H x = Return (L10n.Genre t) ->
  map (text H) (xpath H x "//div[@class='main_genre']/a") = map Some names ->
  outline_row H prefs x (md, tags)
  = Return (md, tags ++ map (fun name => "genre." +:+ name) names).
Proof.
  intros Ht Hd Hnames.
  destruct (genre_label_apart t Ht) as (E1 & E2 & E3 & E4).
  unfold outline_row. rewrite Hd, Ht. cbn [obind].
  rewrite E1. cbn [obind]. rewrite E2, E3, E4, String.eqb_refl.
  rewrite (genre_tags_names _ names tags Hnames). reflexivity.
Qed.

(** X24.  Where the [Circle] label of the locale is its [Publisher] label, a
    row of the maker table never gives a [group.] tag: the row that
    should give it sets the publisher.  The only tag a row can add is a
    [label.] tag. *)
Theorem circle_shadowed_by_publisher x t md tags md' tags' :
  translation prefs = Return t ->
  L10n.Circle t = L10n.Publisher t ->
  maker_row H prefs x (md, tags) = Return (md', tags') ->
  tags' = tags \/ exists name, tags' = tags ++ ["label." +:+ name].
Proof.
  intros Ht Hsame E. unfold maker_row in E.
  step E descriptor Ed. rewrite Ht in E. cbn [obind] in E.
  rewrite Hsame in E.
  destruct (String.eqb descriptor (L10n.Author1 t));
    [inversion E; auto|].
  destruct (String.eqb descriptor (L10n.Publisher t)).
  { step E a Ea. inversion E; auto. }
  destruct (String.eqb descriptor (L10n.Label t)).
  { step E a Ea. step E tag Etag. inversion E; subst.
    destruct (text H a) as [name|]; [|discriminate].
    inversion Etag. eauto. }
  inversion E; auto.
Qed.

(** X25.  The URL that [get_book_url] gives for the identifiers is the URL
    that [identify] requests for them, and [get_book_url] gives none
    exactly when [identify] turns to the search. *)
Theorem book_url_is_the_url_identified title authors
    (identifiers : gmap string string) (s : State (Date H)) :
  (forall kind product_id url,
      get_book_url prefs identifiers = Some (kind, product_id, url) ->
      kind = "product_id"
      /\ identifiers !! "dlsite" = Some product_id
      /\ identify_urls H prefs title authors identifiers s
         = (record_request H url s, Return [Some url]))
  /\ (get_book_url prefs identifiers = None ->
      identify_urls H prefs title authors identifiers s
      = if str_bool (_generate_query H prefs title authors)
        then _perform_query H prefs (_generate_query H prefs title authors) s
        else (s, Return [])).
Proof.
  unfold get_book_url. split.
  - intros kind product_id url.
    destruct (identifiers !! "dlsite") as [pid|] eqn:Hid; [|discriminate].
    destruct (str_bool pid) eqn:Hne; [|discriminate].
    intros [= <- <- <-]. split; [reflexivity|]. split; [reflexivity|].
    apply identify_urls_known; assumption.
  - destruct (identifiers !! "dlsite") as [pid|] eqn:Hid.
    + destruct pid as [|c pid]; [|discriminate]. intros _.
      apply identify_urls_search. auto.
    + intros _. apply identify_urls_search. auto.
Qed.

End Rows.

Section RowsWitnesses.

Import DLsiteMetadata Canned Pages.

Lemma genre_row_tags_witness :
  outline_row (host (only page_genres)) (prefs_en 1 "" "")
    (page_genres, row "Genre" []) (Metadata_new "Seventh Book", ["event.C103"])
  = Return (Metadata_new "Seventh Book",
            ["event.C103"] ++ map (fun name => "genre." +:+ name)
                                  ["Comedy"; "School"]).
Proof.
  apply (genre_row_tags (host (only page_genres)) (prefs_en 1 "" "")
           (page_genres, row "Genre" []) translation_en ["Comedy"; "School"]);
    reflexivity.
Defined.

(** A French page with a circle: the row sets the publisher and adds no
    tag. *)
Lemma circle_shadowed_by_publisher_witness :
  maker_row (host (only page_fr)) prefs_fr (page_fr, row "1%" [])
    (Metadata_new "Livre", [])
  = Return (set_publisher (Metadata_new "Livre") (Some "Cercle X"), [])
  /\ (@nil string = [] \/ exists name, @nil string = [] ++ ["label." +:+ name]).
Proof.
  split; [reflexivity|].
  apply (circle_shadowed_by_publisher (host (only page_fr)) prefs_fr
           (page_fr, row "1%" []) translation_fr (Metadata_new "Livre") []
           (set_publisher (Metadata_new "Livre") (Some "Cercle X")) []);
    reflexivity.
Defined.

Lemma book_url_is_the_url_identified_witness :
  let prefs := prefs_en 1 "" "" in
  let url := product_url prefs "BJ001" in
  get_book_url prefs {[ "dlsite" := "BJ001" ]} = Some ("product_id", "BJ001", url)
  /\ identify_urls (host shop) prefs None None {[ "dlsite" := "BJ001" ]} init
     = (record_request (host shop) url init, Return [Some url]).
Proof.
  intros prefs url. split; [reflexivity|].
  apply (proj1 (book_url_is_the_url_identified (host shop) prefs None None
                  {[ "dlsite" := "BJ001" ]} init) "product_id" "BJ001" url).
  reflexivity.
Defined.

End RowsWitnesses.
